(** * UnipdSkin: a driver for a capacitive robot-skin matrix controller

    Shallow embedding of [UnipdSkin.h] / [UnipdSkin.cpp] and the properties
    of its scan protocol.

    The driver talks to the controller through Arduino's [Wire] object.
    [Wire] is not part of the library, so the device and the bus are taken
    as a parameter (a [Platform]): every result below holds for every
    device behaviour.  All effects of the driver (bus traffic, delays,
    serial output, allocations, array accesses) are recorded as an event
    trace, so that "what was written to which register" can be stated. *)

From Stdlib Require Import ZArith Lia String.
From stdpp Require Import base tactics numbers option list.

Local Open Scope Z_scope.

(** ** Constants of UnipdSkin.h *)

Definition I2C_ADDRESS : Z := 0x38.
Definition MODE_NORMAL : Z := 0x00.
Definition MODE_TEST : Z := 0x40.
Definition NUM_RX : Z := 12.
Definition NUM_TX : Z := 21.

(** ** Pointers, events, platform *)

(** [unsigned int *grid]: either the null pointer or the first cell of an
    array obtained from [new[]]; arrays are numbered in allocation order. *)
Inductive ptr : Type :=
| nullptr
| block (b : nat).

Global Instance ptr_eq_dec : EqDecision ptr.
Proof. solve_decision. Defined.

Inductive Event : Type :=
| WireBegin
| WireSetClock (hz : Z)
| WireSetTimeout (ms : Z)
  (** a finished beginTransmission / write ... / endTransmission *)
| Transmission (addr : Z) (payload : list Z) (sendStop : bool) (status : Z)
  (** requestFrom, with the bytes the device delivered *)
| RequestFrom (addr : Z) (quantity : Z) (delivered : list Z)
| Delay (ms : Z)
| DelayMicroseconds (us : Z)
| SerialPrintln (s : string)
  (** the test [grid == nullptr] in useRawData, with its outcome *)
| AllocCheck (was_null : bool)
  (** [new unsigned int[n]] returning array number [b] *)
| New (b : nat) (n : Z)
  (** accesses to the local burst buffer of getRawData *)
| BufferStore (off : Z) (v : Z)
| BufferLoad (off : Z)
  (** [grid[idx] = v] through the pointer value [p] *)
| GridStore (p : ptr) (idx : Z) (v : Z).

(** What the code does not fix: the width of [unsigned int], the answers of
    the bus and of the device, and the contents of memory that is read
    before it is written.  Answers may depend on everything that happened
    so far. *)
Record Platform : Type := {
  uint_bits : Z;
  (** status returned by endTransmission *)
  ack : list Event -> Z -> list Z -> Z;
  (** bytes offered by the device to a requestFrom *)
  reply : list Event -> Z -> Z -> list Z;
  (** contents of an uninitialised local byte array *)
  stack_junk : list Event -> nat -> Z;
  (** contents of a fresh [new unsigned int[]] array *)
  heap_junk : list Event -> nat -> Z
}.

(** ** The object and the machine around it *)

Record UnipdSkin : Type := mkUnipdSkin {
  grid : ptr;
  num_TX : Z;
  num_RX : Z;
  isInit : bool;
  rawData : bool;
  RX_lines : list bool;
  TX_lines : list bool
}.

(** The part of [Wire] the driver depends on: the address and bytes queued
    for transmission and the bytes received and not yet read. *)
Record TwoWire : Type := mkTwoWire {
  txAddress : Z;
  txBuffer : list Z;
  rxBuffer : list Z
}.

Record Machine : Type := mkMachine {
  self : UnipdSkin;
  heap : list (list Z);
  Wire : TwoWire;
  events : list Event
}.

(** The constructor [UnipdSkin::UnipdSkin() {}] with the default member
    initialisers of the header.  [grid] has no initialiser: it keeps what
    the storage of the object held, [nullptr] for an object with static
    storage duration (zero-initialised before the constructor runs) and an
    indeterminate value otherwise. *)
Definition UnipdSkin_ctor (storage_grid : ptr) : UnipdSkin :=
  {| grid := storage_grid;
     num_TX := NUM_TX;
     num_RX := NUM_RX;
     isInit := false;
     rawData := false;
     RX_lines := [true;true;true;true;true;true;true;true;true;true;true;true];
     TX_lines := [true;true;true;true;true;true;true;true;true;true;true;
                  true;true;true;true;true;true;true;true;true;true] |}.

Definition power_on (storage_grid : ptr) : Machine :=
  {| self := UnipdSkin_ctor storage_grid;
     heap := [];
     Wire := {| txAddress := 0; txBuffer := []; rxBuffer := [] |};
     events := [] |}.

(** ** State monad *)

Definition M (A : Type) : Type := Machine -> A * Machine.

Global Instance M_ret : MRet M := fun A a m => (a, m).
Global Instance M_bind : MBind M :=
  fun A B f c m => let '(a, m') := c m in f a m'.

Definition gets {A} (f : Machine -> A) : M A := fun m => (f m, m).
Definition this : M UnipdSkin := gets self.
Definition set_self (f : UnipdSkin -> UnipdSkin) : M unit :=
  fun m => (tt, {| self := f (self m); heap := heap m; Wire := Wire m;
                   events := events m |}).
Definition set_Wire (f : TwoWire -> TwoWire) : M unit :=
  fun m => (tt, {| self := self m; heap := heap m; Wire := f (Wire m);
                   events := events m |}).
Definition set_heap (f : list (list Z) -> list (list Z)) : M unit :=
  fun m => (tt, {| self := self m; heap := f (heap m); Wire := Wire m;
                   events := events m |}).
Definition emit (e : Event) : M unit :=
  fun m => (tt, {| self := self m; heap := heap m; Wire := Wire m;
                   events := events m ++ [e] |}).

(** [for (i = 0; i < n; i++)] with the loop-carried locals [s]. *)
Fixpoint for_each {A S : Type} (l : list A) (body : A -> S -> M S) (s : S)
  : M S :=
  match l with
  | [] => mret s
  | x :: l' => s' ← body x s; for_each l' body s'
  end.

Definition range (n : Z) : list Z := Z.of_nat <$> seq 0 (Z.to_nat n).

(** [a[i]] on a fixed-size array of bool; the arrays have NUM_RX and NUM_TX
    cells and the loops stay below these bounds. *)
Definition line_at (lines : list bool) (i : Z) : bool :=
  default false (lines !! Z.to_nat i).

(** uint8_t arithmetic *)
Definition to_byte (z : Z) : Z := z mod 256.

Definition is_byte (z : Z) : Prop := 0 <= z < 256.

(** Combine High Byte and Low Byte.  The bytes are promoted to [int]
    before the shift; where [int] has 16 bits the shift of a byte above
    0x7f wraps to a negative [int], and the conversion to [unsigned int]
    that follows (see [rx_step]) gives the same 16 bits as the value
    computed here without wrap-around. *)
Definition sample (hi lo : Z) : Z := Z.lor (Z.shiftl hi 8) lo.

(** Memory after [p[idx] = v], for a store inside an array of the heap.  A
    store through a null or dangling pointer, or at an index outside the
    array, is undefined in C++ and may change any memory: the model records
    the store in the trace ([GridStore]) and leaves the heap as it is, so
    what is stated about the heap after a scan is stated for a scan whose
    stores are inside the array ([stride_ok] and a grid of
    NUM_TX * NUM_RX cells). *)
Definition poke (p : ptr) (idx v : Z) (hp : list (list Z)) : list (list Z) :=
  match p with
  | nullptr => hp
  | block b =>
      match hp !! b with
      | Some cells => <[b := <[Z.to_nat idx := v]> cells]> hp
      | None => hp
      end
  end.

Section Driver.
Context (pf : Platform).

Definition to_uint (z : Z) : Z := z mod 2 ^ uint_bits pf.

(** *** Wire *)

Definition Wire_begin : M unit := emit WireBegin.
Definition Wire_setClock (hz : Z) : M unit := emit (WireSetClock hz).
Definition Wire_setTimeout (ms : Z) : M unit := emit (WireSetTimeout ms).

Definition Wire_beginTransmission (addr : Z) : M unit :=
  set_Wire (fun w => {| txAddress := addr; txBuffer := [];
                        rxBuffer := rxBuffer w |}).

Definition Wire_write (b : Z) : M unit :=
  set_Wire (fun w => {| txAddress := txAddress w;
                        txBuffer := txBuffer w ++ [to_byte b];
                        rxBuffer := rxBuffer w |}).

Definition Wire_endTransmission (sendStop : bool) : M Z :=
  h ← gets events;
  w ← gets Wire;
  let status := to_byte (ack pf h (txAddress w) (txBuffer w)) in
  emit (Transmission (txAddress w) (txBuffer w) sendStop status);;
  set_Wire (fun w => {| txAddress := txAddress w; txBuffer := [];
                        rxBuffer := rxBuffer w |});;
  mret status.

(** The master clocks in at most [quantity] bytes. *)
Definition Wire_requestFrom (addr quantity : Z) : M Z :=
  h ← gets events;
  let delivered :=
    take (Z.to_nat quantity) (to_byte <$> reply pf h addr quantity) in
  emit (RequestFrom addr quantity delivered);;
  set_Wire (fun w => {| txAddress := txAddress w; txBuffer := txBuffer w;
                        rxBuffer := delivered |});;
  mret (Z.of_nat (length delivered)).

Definition Wire_available : M Z :=
  gets (fun m => Z.of_nat (length (rxBuffer (Wire m)))).

Definition Wire_read : M Z :=
  w ← gets Wire;
  match rxBuffer w with
  | [] => mret (-1)
  | b :: rest =>
      set_Wire (fun w => {| txAddress := txAddress w;
                            txBuffer := txBuffer w; rxBuffer := rest |});;
      mret b
  end.

(** *** Internal: Write I2C Register *)

Definition setRegister (reg val : Z) : M Z :=
  Wire_beginTransmission I2C_ADDRESS;;
  Wire_write reg;;
  Wire_write val;;
  st ← Wire_endTransmission false;
  mret (to_byte st).

(** *** Internal: Read Multiple Registers *)

(** [while (Wire.available()) buffer[i++] = Wire.read();]
    [pending] is the receive queue when the loop is entered; every
    iteration takes one byte off the queue of [Wire], and the loop is
    left when [Wire.available()] is 0, that is when the queue is empty. *)
Fixpoint drain (pending : list Z) (i : Z) (buffer : list Z) : M (list Z) :=
  match pending with
  | [] => mret buffer
  | _ :: pending' =>
      b ← Wire_read;
      emit (BufferStore i (to_byte b));;
      drain pending' (to_byte (i + 1)) (<[Z.to_nat i := to_byte b]> buffer)
  end.

Definition getRegisters (reg size : Z) (buffer : list Z) : M (list Z) :=
  Wire_beginTransmission I2C_ADDRESS;;
  Wire_write reg;;
  st ← Wire_endTransmission false;
  let st := to_uint st in
  (if decide (st ≠ 0) then mret tt (* Optional: Handle I2C error here *)
   else mret tt);;
  Wire_requestFrom I2C_ADDRESS size;;
  pending ← gets (fun m => rxBuffer (Wire m));
  drain pending 0 buffer.

(** *** 1. Initialization *)

Definition init : M bool :=
  Wire_begin;;
  Wire_setClock 400000;;
  Wire_setTimeout 200;;
  let initDone := to_byte (-1) in
  initDone ← setRegister 0x00 MODE_NORMAL;
  if decide (initDone = 0) then
    emit (Delay 100);;
    set_self (fun s => {| grid := grid s; num_TX := num_TX s;
                          num_RX := num_RX s; isInit := true;
                          rawData := rawData s; RX_lines := RX_lines s;
                          TX_lines := TX_lines s |});;
    setRegister 0xA7 0x04;;
    mret (negb (0 =? 0)) (* return 0; converted to bool *)
  else
    emit (SerialPrintln
      "[UnipdSkin] Error: I2C Connection Failed. Check SDA/SCL.");;
    mret (negb (1 =? 0)) (* return 1; converted to bool *).

(** *** 2. Enable Raw Data Mode *)

Definition new_uint_array (n : Z) : M ptr :=
  h ← gets events;
  hp ← gets heap;
  let b := length hp in
  let cells := (fun k => to_uint (heap_junk pf h k)) <$> seq 0 (Z.to_nat n) in
  set_heap (fun hp => hp ++ [cells]);;
  emit (New b n);;
  mret (block b).

Definition useRawData (useRaw : bool) : M unit :=
  set_self (fun s => {| grid := grid s; num_TX := num_TX s;
                        num_RX := num_RX s; isInit := isInit s;
                        rawData := useRaw; RX_lines := RX_lines s;
                        TX_lines := TX_lines s |});;
  s ← this;
  emit (AllocCheck (bool_decide (grid s = nullptr)));;
  (if decide (grid s = nullptr) then
     p ← new_uint_array (to_uint (num_TX s * num_RX s));
     set_self (fun s => {| grid := p; num_TX := num_TX s;
                           num_RX := num_RX s; isInit := isInit s;
                           rawData := rawData s; RX_lines := RX_lines s;
                           TX_lines := TX_lines s |})
   else mret tt);;
  s ← this;
  if isInit s && useRaw then
    setRegister 0x00 MODE_TEST;;
    emit (SerialPrintln "[UnipdSkin] Mode set to Raw Data Stream")
  else mret tt.

(** *** Internal: Fetch Raw Data from Matrix *)

(** [grid[idx] = v]; a store outside an allocated array is undefined in
    C++: here it is recorded in the trace and leaves memory as it is. *)
Definition grid_store (idx v : Z) : M unit :=
  s ← this;
  emit (GridStore (grid s) idx v);;
  set_heap (poke (grid s) idx v).

(** [buffer[off]] *)
Definition buffer_load (buffer : list Z) (off : Z) : M Z :=
  emit (BufferLoad off);;
  mret (default 0 (buffer !! Z.to_nat off)).

(** body of [for (rxAddr ...)] *)
Definition rx_step (buffer : list Z) (gridTxAddr : Z)
    (rxAddr gridRxAddr : Z) : M Z :=
  s ← this;
  if line_at (RX_lines s) rxAddr then
    hi ← buffer_load buffer (to_uint (2 * rxAddr));
    lo ← buffer_load buffer (to_uint (to_uint (2 * rxAddr) + 1));
    grid_store (to_uint (to_uint (gridTxAddr * num_RX s) + gridRxAddr))
               (to_uint (sample hi lo));;
    mret (to_byte (gridRxAddr + 1))
  else mret gridRxAddr.

(** body of [for (txAddr ...)]; the locals carried round the loop are
    [buffer], [gridTxAddr] and [gridRxAddr] *)
Definition tx_step (txAddr : Z) (locals : list Z * Z * Z)
  : M (list Z * Z * Z) :=
  let '(buffer, gridTxAddr, gridRxAddr) := locals in
  s ← this;
  if line_at (TX_lines s) txAddr then
    setRegister 0x01 (to_byte (to_uint (NUM_TX - 1 - txAddr)));;
    emit (DelayMicroseconds 50);;
    buffer ← getRegisters 0x10 (to_byte (2 * NUM_RX)) buffer;
    let gridRxAddr := 0 in
    gridRxAddr ← for_each (range NUM_RX) (rx_step buffer gridTxAddr)
                          gridRxAddr;
    mret (buffer, to_byte (gridTxAddr + 1), gridRxAddr)
  else mret (buffer, gridTxAddr, gridRxAddr).

(** [byte buffer[2 * NUM_RX];] is not initialised *)
Definition local_buffer : M (list Z) :=
  h ← gets events;
  mret ((fun k => to_byte (stack_junk pf h k)) <$>
        seq 0 (Z.to_nat (2 * NUM_RX))).

Definition getRawData : M unit :=
  setRegister (to_byte 0x00) (to_byte 0xC0);;
  buffer ← local_buffer;
  let gridTxAddr := 0 in
  let gridRxAddr := 0 in
  for_each (range NUM_TX) tx_step (buffer, gridTxAddr, gridRxAddr);;
  mret tt.

(** *** 3. Update Function *)

Definition updated : M bool :=
  s ← this;
  if negb (isInit s) then mret false
  else if rawData s then
    getRawData;;
    mret true
  else mret false.

End Driver.

(** ** Reading a trace *)

(** The lines a scan includes: the indices below [n] whose entry is true,
    in ascending order. Its [i]-th element is the [i]-th true entry. *)
Definition active (n : Z) (lines : list bool) : list Z :=
  filter (fun i => Is_true (line_at lines i)) (range n).

Definition countActive (n : Z) (lines : list bool) : nat :=
  length (active n lines).

Definition grid_stores (tr : list Event) : list (ptr * Z * Z) :=
  omap (fun e => match e with
                 | GridStore p idx v => Some (p, idx, v)
                 | _ => None
                 end) tr.

Definition buffer_loads (tr : list Event) : list Z :=
  omap (fun e => match e with BufferLoad off => Some off | _ => None end) tr.

(** register writes: transmissions of a register address and one value *)
Definition register_writes (tr : list Event) : list (Z * Z) :=
  omap (fun e => match e with
                 | Transmission _ [reg; val] _ _ => Some (reg, val)
                 | _ => None
                 end) tr.

(** values written to the TX-select register 0x01 *)
Definition tx_selects (tr : list Event) : list Z :=
  omap (fun rv => if decide (rv.1 = 0x01) then Some rv.2 else None)
       (register_writes tr).

(** the bytes delivered by each requestFrom *)
Definition bursts (tr : list Event) : list (list Z) :=
  omap (fun e => match e with
                 | RequestFrom _ _ delivered => Some delivered
                 | _ => None
                 end) tr.

Definition allocations (tr : list Event) : list (nat * Z) :=
  omap (fun e => match e with New b n => Some (b, n) | _ => None end) tr.

(** The row stride of the grid is the field [num_RX].  The scan needs it to
    be at least the number of included RX lines (rows must not overlap)
    and at most NUM_RX (the array has NUM_TX * NUM_RX cells).  The driver
    never assigns [num_RX] nor the line arrays: in every state it reaches,
    [num_RX] is NUM_RX and so is the number of included RX lines. *)
Definition stride_ok (m : Machine) : Prop :=
  Z.of_nat (countActive NUM_RX (RX_lines (self m))) <= num_RX (self m)
  <= NUM_RX.

(** ** The trace and the memory of a scan in closed form *)

(** the sample of RX line [r] decoded from a burst buffer *)
Definition sample_at (buffer : list Z) (r : Z) : Z :=
  sample (default 0 (buffer !! Z.to_nat (2 * r)))
         (default 0 (buffer !! Z.to_nat (2 * r + 1))).

(** one row: the samples of the lines [cols] go to consecutive cells from
    [pos] on *)
Fixpoint row_events (p : ptr) (buffer : list Z) (pos : Z) (cols : list Z)
  : list Event :=
  match cols with
  | [] => []
  | r :: cols' =>
      BufferLoad (2 * r) :: BufferLoad (2 * r + 1) ::
      GridStore p pos (sample_at buffer r) ::
      row_events p buffer (pos + 1) cols'
  end.

Fixpoint row_heap (p : ptr) (buffer : list Z) (pos : Z) (cols : list Z)
    (hp : list (list Z)) : list (list Z) :=
  match cols with
  | [] => hp
  | r :: cols' =>
      row_heap p buffer (pos + 1) cols' (poke p pos (sample_at buffer r) hp)
  end.

(** What the bus answered while one row was read: the status of the
    TX-select write, the status of the burst set-up and the bytes
    delivered. *)
Definition RowIO : Type := Z * Z * list Z.

Definition delivered (x : RowIO) : list Z := x.2.

Definition RowIO_ok (x : RowIO) : Prop :=
  Forall is_byte (delivered x) /\
  (length (delivered x) <= Z.to_nat (2 * NUM_RX))%nat.

(** the burst buffer after a burst: the delivered bytes from offset 0 on,
    the rest as it was *)
Definition after_burst (buffer : list Z) (x : RowIO) : list Z :=
  list_inserts 0 (delivered x) buffer.

Fixpoint scan_events (p : ptr) (nrx : Z) (cols : list Z) (gridTxAddr : Z)
    (buffer : list Z) (rows : list Z) (xs : list RowIO) : list Event :=
  match rows, xs with
  | t :: rows', x :: xs' =>
      let buffer' := after_burst buffer x in
      [Transmission I2C_ADDRESS [0x01; NUM_TX - 1 - t] false x.1.1;
       DelayMicroseconds 50;
       Transmission I2C_ADDRESS [0x10] false x.1.2;
       RequestFrom I2C_ADDRESS (2 * NUM_RX) (delivered x)] ++
      imap (fun k v => BufferStore (Z.of_nat k) v) (delivered x) ++
      row_events p buffer' (gridTxAddr * nrx) cols ++
      scan_events p nrx cols (gridTxAddr + 1) buffer' rows' xs'
  | _, _ => []
  end.

Fixpoint scan_heap (p : ptr) (nrx : Z) (cols : list Z) (gridTxAddr : Z)
    (buffer : list Z) (rows : list Z) (xs : list RowIO)
    (hp : list (list Z)) : list (list Z) :=
  match rows, xs with
  | t :: rows', x :: xs' =>
      let buffer' := after_burst buffer x in
      scan_heap p nrx cols (gridTxAddr + 1) buffer' rows' xs'
        (row_heap p buffer' (gridTxAddr * nrx) cols hp)
  | _, _ => hp
  end.

(** the burst buffer as it stands after the bursts of the first [i + 1]
    rows of a scan *)
Definition burst_buffer (buffer : list Z) (xs : list RowIO) (i : nat)
  : list Z :=
  foldl after_burst buffer (take (S i) xs).

(** the cells of the grid array after the rows [rows] of a scan *)
Fixpoint scan_cells (nrx : Z) (cols : list Z) (gridTxAddr : Z)
    (buffer : list Z)
    (rows : list Z) (xs : list RowIO) (cells : list Z) : list Z :=
  match rows, xs with
  | t :: rows', x :: xs' =>
      let buffer' := after_burst buffer x in
      scan_cells nrx cols (gridTxAddr + 1) buffer' rows' xs'
        (list_inserts (Z.to_nat (gridTxAddr * nrx))
                      (sample_at buffer' <$> cols) cells)
  | _, _ => cells
  end.

(** the bus traffic of a scan: the mode write, then for every included TX
    line its select write, the set-up of the burst and the burst *)
Definition on_bus (e : Event) : bool :=
  match e with
  | Transmission _ _ _ _ | RequestFrom _ _ _ => true
  | _ => false
  end.

Definition bus_traffic (tr : list Event) : list Event :=
  filter (fun e => Is_true (on_bus e)) tr.



(** ** Sequences of public calls *)

Inductive Call : Type :=
| CallInit
| CallUseRawData (useRaw : bool)
| CallUpdated.

Definition call (pf : Platform) (c : Call) : M unit :=
  match c with
  | CallInit => init pf;; mret tt
  | CallUseRawData useRaw => useRawData pf useRaw
  | CallUpdated => updated pf;; mret tt
  end.

Definition run (pf : Platform) (cs : list Call) (m : Machine) : Machine :=
  (for_each cs (fun c _ => call pf c) tt m).2.

(** the status the bus reports for the mode-register write of [init]
    when [init] is entered in machine [m] *)
Definition mode_write_status (pf : Platform) (m : Machine) : Z :=
  to_byte (ack pf (events m ++
                   [WireBegin; WireSetClock 400000; WireSetTimeout 200])
               I2C_ADDRESS [0x00; MODE_NORMAL]).

(** every store through the grid pointer comes after a test
    [grid == nullptr] of useRawData *)
Definition guarded (tr : list Event) : Prop :=
  forall pre p idx v post,
    tr = pre ++ GridStore p idx v :: post ->
    exists was_null, AllocCheck was_null ∈ pre.

(** The two stages in the life of an object that started with a null
    [grid]: before the first useRawData nothing is allocated and nothing is
    stored; from then on [grid] points to array 0, the only array ever
    allocated, of NUM_TX * NUM_RX cells, and all stores go there. *)
Definition unallocated (m : Machine) : Prop :=
  num_TX (self m) = NUM_TX /\ num_RX (self m) = NUM_RX /\
  grid (self m) = nullptr /\ heap m = [] /\ rawData (self m) = false /\
  allocations (events m) = [] /\ grid_stores (events m) = [].

Definition allocated (m : Machine) : Prop :=
  num_TX (self m) = NUM_TX /\ num_RX (self m) = NUM_RX /\
  grid (self m) = block 0 /\
  (exists cells, heap m = [cells] /\
                 length cells = Z.to_nat (NUM_TX * NUM_RX)) /\
  allocations (events m) = [(0%nat, NUM_TX * NUM_RX)] /\
  Forall (fun s => s.1.1 = block 0 /\ 0 <= s.1.2 < NUM_TX * NUM_RX)
         (grid_stores (events m)).

(** ** A concrete platform and object, to run the definitions on *)

(** 16-bit [unsigned int]; every transmission is acknowledged; a burst
    request is answered in full, with bytes that depend on what happened
    before. *)
Definition demo_platform : Platform :=
  {| uint_bits := 16;
     ack := fun _ _ _ => 0;
     reply := fun h _ n =>
       (fun k => Z.of_nat (length h) + 3 * Z.of_nat k) <$>
       seq 0 (Z.to_nat n);
     stack_junk := fun _ _ => 0xA5;
     heap_junk := fun _ _ => 0xFFFF |}.

(** a device that answers every burst request with three bytes only *)
Definition short_platform : Platform :=
  {| uint_bits := 16;
     ack := fun _ _ _ => 0;
     reply := fun _ _ _ => [0x12; 0x34; 0x56];
     stack_junk := fun _ _ => 0xA5;
     heap_junk := fun _ _ => 0xFFFF |}.

(** a bus on which nothing answers: every transmission ends with status 2
    (address not acknowledged) and no byte is delivered *)
Definition dead_platform : Platform :=
  {| uint_bits := 16;
     ack := fun _ _ _ => 2;
     reply := fun _ _ _ => [];
     stack_junk := fun _ _ => 0xA5;
     heap_junk := fun _ _ => 0xFFFF |}.

(** an initialised object in raw mode, with TX lines 1 and 19 and RX line 2
    switched off, and [num_RX] the number of RX lines left *)
Definition demo_machine : Machine :=
  {| self :=
       {| grid := block 0;
          num_TX := NUM_TX;
          num_RX := 11;
          isInit := true;
          rawData := true;
          RX_lines := [true;true;false;true;true;true;true;true;true;true;
                       true;true];
          TX_lines := [true;false;true;true;true;true;true;true;true;true;
                       true;true;true;true;true;true;true;true;true;false;
                       true] |};
     heap := [replicate 252 0];
     Wire := {| txAddress := 0; txBuffer := []; rxBuffer := [] |};
     events := [] |}.

Definition demo_buffer : list Z :=
  [0x12; 0x34; 0; 1; 2; 3; 4; 5; 6; 7; 8; 9; 10; 11; 12; 13; 14; 15; 16; 17;
   18; 19; 0xFF; 0xFE].

(** what a call leaves alone: the old events and the dimensions; [new] is
    what the call adds to the trace *)
Definition call_frame (m m' : Machine) (new : list Event) : Prop :=
  events m' = events m ++ new /\
  num_TX (self m') = num_TX (self m) /\
  num_RX (self m') = num_RX (self m).

(** ** Further observations *)

(** the stores into the local burst buffer: offset and byte *)
Definition buffer_stores (tr : list Event) : list (Z * Z) :=
  omap (fun e => match e with
                 | BufferStore off v => Some (off, v)
                 | _ => None
                 end) tr.

(** [hp'] has the arrays of [hp], with their sizes; only the array [p]
    points to may have got other contents *)
Definition same_shape (p : ptr) (hp hp' : list (list Z)) : Prop :=
  length hp' = length hp /\
  forall b cells,
    hp !! b = Some cells ->
    exists cells',
      hp' !! b = Some cells' /\ length cells' = length cells /\
      (p <> block b -> cells' = cells).

(** bus traffic as the driver generates it: to the controller's address,
    transmissions ended without a stop, bursts of [2 * NUM_RX] bytes *)
Definition to_controller (e : Event) : bool :=
  match e with
  | Transmission addr _ sendStop _ =>
      bool_decide (addr = I2C_ADDRESS) && negb sendStop
  | RequestFrom addr quantity _ =>
      bool_decide (addr = I2C_ADDRESS) && bool_decide (quantity = 2 * NUM_RX)
  | _ => true
  end.

(** the masks of [demo_machine] on an object with [num_RX] as the header
    sets it, NUM_RX, and an array filled with the pattern 0xDEAD *)
Definition sparse_machine : Machine :=
  {| self :=
       {| grid := block 0;
          num_TX := NUM_TX;
          num_RX := NUM_RX;
          isInit := true;
          rawData := true;
          RX_lines := RX_lines (self demo_machine);
          TX_lines := TX_lines (self demo_machine) |};
     heap := [replicate 252 0xDEAD];
     Wire := {| txAddress := 0; txBuffer := []; rxBuffer := [] |};
     events := [] |}.

(** [demo_machine] with every TX line switched off *)
Definition no_tx_machine : Machine :=
  {| self :=
       {| grid := block 0;
          num_TX := NUM_TX;
          num_RX := 11;
          isInit := true;
          rawData := true;
          RX_lines := RX_lines (self demo_machine);
          TX_lines := replicate 21 false |};
     heap := [replicate 252 0];
     Wire := {| txAddress := 0; txBuffer := []; rxBuffer := [] |};
     events := [] |}.

(** [demo_machine] with every RX line switched off *)
Definition no_rx_machine : Machine :=
  {| self :=
       {| grid := block 0;
          num_TX := NUM_TX;
          num_RX := 11;
          isInit := true;
          rawData := true;
          RX_lines := replicate 12 false;
          TX_lines := TX_lines (self demo_machine) |};
     heap := [replicate 252 0];
     Wire := {| txAddress := 0; txBuffer := []; rxBuffer := [] |};
     events := [] |}.

(** * Properties *)

(** unfold the monad and the primitive operations *)
Ltac run_m :=
  cbv [mbind M_bind mret M_ret gets this emit set_Wire set_self set_heap
       self heap Wire events txAddress txBuffer rxBuffer
       Wire_begin Wire_setClock Wire_setTimeout Wire_beginTransmission
       Wire_write Wire_endTransmission Wire_requestFrom Wire_available
       Wire_read setRegister].

Arguments to_byte : simpl never.
Arguments to_uint : simpl never.
Arguments sample : simpl never.

(** ** The definitions at work *)

Example sample_0x12_0x34 : sample 0x12 0x34 = 0x1234.
Proof. reflexivity. Qed.

Example init_on_a_dead_bus :
  (init dead_platform (power_on nullptr)).1 = true /\
  isInit (self (init dead_platform (power_on nullptr)).2) = false /\
  register_writes (events (init dead_platform (power_on nullptr)).2)
    = [(0x00, MODE_NORMAL)].
Proof. by vm_compute. Qed.

Example init_on_a_live_bus :
  (init demo_platform (power_on nullptr)).1 = false /\
  isInit (self (init demo_platform (power_on nullptr)).2) = true /\
  register_writes (events (init demo_platform (power_on nullptr)).2)
    = [(0x00, MODE_NORMAL); (0xA7, 0x04)].
Proof. by vm_compute. Qed.

Example updated_before_init :
  updated demo_platform (useRawData demo_platform true (power_on nullptr)).2
  = (false, (useRawData demo_platform true (power_on nullptr)).2).
Proof. by vm_compute. Qed.

Example first_scan_selects_20_down_to_0 :
  tx_selects (events (run demo_platform
                          [CallInit; CallUseRawData true; CallUpdated]
                          (power_on nullptr)))
  = [20; 19; 18; 17; 16; 15; 14; 13; 12; 11; 10; 9; 8; 7; 6; 5; 4; 3; 2; 1; 0].
Proof. by vm_compute. Qed.

(** three bytes delivered for 24 requested: the rest of the buffer is as
    it was *)
Example short_burst :
  (getRegisters short_platform 0x10 24 (replicate 24 0xEE) demo_machine).1
  = [0x12; 0x34; 0x56] ++ replicate 21 0xEE.
Proof. by vm_compute. Qed.

(** TX line 1 is switched off: the second row of the grid holds the
    samples of TX line 2 (select value 18) *)
Example demo_scan_skips_line_1 :
  take 3 (tx_selects (events (getRawData demo_platform demo_machine).2))
  = [20; 18; 17].
Proof. by vm_compute. Qed.

Lemma to_byte_range z : is_byte (to_byte z).
Proof. unfold is_byte, to_byte. apply Z.mod_pos_bound. lia. Qed.

Lemma to_byte_small z : is_byte z -> to_byte z = z.
Proof. unfold is_byte, to_byte. intros. apply Z.mod_small. lia. Qed.

Lemma to_byte_idemp z : to_byte (to_byte z) = to_byte z.
Proof. apply to_byte_small, to_byte_range. Qed.

Lemma Forall_to_byte (l : list Z) : Forall is_byte (to_byte <$> l).
Proof. induction l; constructor; auto using to_byte_range. Qed.

Lemma fmap_to_byte_small (l : list Z) :
  Forall is_byte l -> to_byte <$> l = l.
Proof.
  induction 1 as [|x l Hx _ IH]; [done|].
  rewrite fmap_cons, IH, to_byte_small; done.
Qed.

(** The two bytes do not overlap: the sample is [hi * 256 + lo]. *)
Lemma sample_add hi lo : is_byte lo -> 0 <= hi -> sample hi lo = hi * 256 + lo.
Proof.
  unfold is_byte, sample. intros Hlo Hhi.
  assert (Hland : Z.land (Z.shiftl hi 8) lo = 0).
  { apply Z.bits_inj'. intros n Hn.
    rewrite Z.land_spec, Z.bits_0.
    destruct (Z.lt_ge_cases n 8) as [Hlt|Hge].
    - rewrite Z.shiftl_spec_low by lia. done.
    - destruct (Z.eq_dec lo 0) as [->|Hne].
      + rewrite Z.bits_0. apply andb_false_r.
      + rewrite (Z.bits_above_log2 lo n); [apply andb_false_r|lia|].
        assert (Z.log2 lo < 8) by (apply Z.log2_lt_pow2; lia). lia. }
  rewrite <- Z.lxor_lor by done.
  rewrite <- Z.add_nocarry_lxor by done.
  rewrite Z.shiftl_mul_pow2 by lia. lia.
Qed.

Lemma sample_range hi lo :
  is_byte hi -> is_byte lo -> 0 <= sample hi lo < 65536.
Proof.
  intros Hhi Hlo. rewrite sample_add by (unfold is_byte in *; lia).
  unfold is_byte in *. lia.
Qed.

Lemma range_bounds n : Forall (fun r => 0 <= r < n) (range n).
Proof.
  unfold range. apply Forall_fmap, Forall_seq. intros i Hi. cbn. lia.
Qed.

Lemma length_range n : length (range n) = Z.to_nat n.
Proof. unfold range. by rewrite length_fmap, length_seq. Qed.

(** ** The events of a scan, by kind *)

Lemma omap_imap_None {A B C} (f : B -> option C) (l : list A) :
  forall g : nat -> A -> B,
  (forall k v, f (g k v) = None) -> omap f (imap g l) = [].
Proof.
  induction l as [|x l IH]; intros g Hg; [done|].
  rewrite imap_cons. cbn. rewrite Hg. apply IH. intros k v. apply Hg.
Qed.

Lemma bus_traffic_app tr1 tr2 :
  bus_traffic (tr1 ++ tr2) = bus_traffic tr1 ++ bus_traffic tr2.
Proof. apply filter_app. Qed.


Lemma active_bounds n lines : Forall (fun r => 0 <= r < n) (active n lines).
Proof.
  apply list.Forall_forall. intros r Hr.
  apply list_elem_of_filter in Hr as [_ Hr].
  revert r Hr. apply list.Forall_forall, range_bounds.
Qed.

Lemma active_length n lines : (length (active n lines) <= Z.to_nat n)%nat.
Proof.
  unfold active. etrans; [apply length_filter|]. by rewrite length_range.
Qed.



Section RowTrace.
Context (p : ptr) (buffer : list Z).

Lemma row_events_register_writes : forall cols pos,
  register_writes (row_events p buffer pos cols) = [].
Proof. induction cols as [|r cols IH]; intros pos; cbn; auto. Qed.



Lemma row_events_stores_bounds : forall cols pos,
  Forall (fun s => s.1.1 = p /\
                   pos <= s.1.2 < pos + Z.of_nat (length cols))
         (grid_stores (row_events p buffer pos cols)).
Proof.
  induction cols as [|r cols IH]; intros pos; cbn; constructor.
  - cbn [fst snd]. split; [done|]. lia.
  - eapply Forall_impl; [apply (IH (pos + 1))|]. intros s [Hp Hs]. split; [done|]. cbn beta in Hs. lia.
Qed.


Lemma row_events_stores_elem : forall cols pos (j : nat) r,
  cols !! j = Some r ->
  (p, pos + Z.of_nat j, sample_at buffer r)
    ∈ grid_stores (row_events p buffer pos cols).
Proof.
  induction cols as [|r0 cols IH]; intros pos [|j] r Hj; try done; cbn.
  - injection Hj as ->. rewrite Z.add_0_r. apply list_elem_of_here.
  - apply list_elem_of_further.
    replace (pos + Z.of_nat (S j)) with (pos + 1 + Z.of_nat j) by lia.
    by apply IH.
Qed.

Lemma row_events_allocations : forall cols pos,
  allocations (row_events p buffer pos cols) = [].
Proof. induction cols as [|r cols IH]; intros pos; cbn; auto. Qed.

Lemma row_events_loads : forall cols pos,
  Forall (fun r => 0 <= r < NUM_RX) cols ->
  Forall (fun off => 0 <= off < 2 * NUM_RX)
         (buffer_loads (row_events p buffer pos cols)).
Proof.
  induction cols as [|r cols IH]; intros pos Hcols; cbn; [done|].
  inversion Hcols; subst. repeat constructor; auto; lia.
Qed.
End RowTrace.

Section ScanTrace.
Context (p : ptr) (nrx : Z) (cols : list Z).
Hypothesis cols_bounds : Forall (fun r => 0 <= r < NUM_RX) cols.
Hypothesis stride_bounds : Z.of_nat (length cols) <= nrx.

Lemma scan_events_tx_selects : forall rows xs gi buffer,
  length xs = length rows ->
  tx_selects (scan_events p nrx cols gi buffer rows xs) =
  (fun t => NUM_TX - 1 - t) <$> rows.
Proof.
  induction rows as [|t rows IH]; intros [|x xs] gi buffer Hxs;
    try done.
  cbn [scan_events]. cbv zeta. unfold tx_selects, register_writes.
  rewrite !omap_app. fold (register_writes
    (row_events p (after_burst buffer x) (gi * nrx) cols)).
  rewrite row_events_register_writes.
  rewrite (omap_imap_None _ (delivered x)) by done.
  cbn. f_equal. apply IH. cbn in Hxs. lia.
Qed.

Lemma scan_events_register_writes : forall rows xs gi buffer,
  length xs = length rows ->
  register_writes (scan_events p nrx cols gi buffer rows xs) =
  (fun t => (0x01, NUM_TX - 1 - t)) <$> rows.
Proof.
  induction rows as [|t rows IH]; intros [|x xs] gi buffer Hxs;
    try done.
  cbn [scan_events]. cbv zeta. unfold register_writes.
  rewrite !omap_app. fold (register_writes
    (row_events p (after_burst buffer x) (gi * nrx) cols)).
  rewrite row_events_register_writes.
  rewrite (omap_imap_None _ (delivered x)) by done.
  cbn. f_equal. apply IH. cbn in Hxs. lia.
Qed.



(** the stores of the rows from [gi] on stay in the cells of these rows *)
Lemma scan_events_stores_bounds : forall rows xs gi buffer,
  0 <= gi ->
  Forall (fun s => s.1.1 = p /\
            gi * nrx <= s.1.2 < (gi + Z.of_nat (length rows)) * nrx)
         (grid_stores (scan_events p nrx cols gi buffer rows xs)).
Proof.
  induction rows as [|t rows IH]; intros [|x xs] gi buffer Hgi;
    try (by constructor).
  cbn [scan_events]. cbv zeta. unfold grid_stores.
  rewrite !omap_app.
  rewrite (omap_imap_None _ (delivered x)) by done.
  cbn [omap list_omap app].
  apply Forall_app. split.
  - eapply Forall_impl; [apply row_events_stores_bounds|].
    intros s [Hp Hs]. split; [done|].
    cbn beta in Hs. cbn [length]. nia.
  - eapply Forall_impl; [apply (IH xs (gi + 1)); lia|].
    intros s [Hp Hs]. split; [done|].
    cbn beta in Hs. cbn [length]. nia.
Qed.


Lemma scan_events_stores_elem : forall rows xs gi buffer (i j : nat) t r,
  length xs = length rows ->
  rows !! i = Some t -> cols !! j = Some r ->
  (p, (gi + Z.of_nat i) * nrx + Z.of_nat j,
   sample_at (burst_buffer buffer xs i) r)
    ∈ grid_stores (scan_events p nrx cols gi buffer rows xs).
Proof.
  induction rows as [|t0 rows IH]; intros [|x xs] gi buffer i j t r Hxs Hi Hj;
    try done.
  cbn [scan_events]. cbv zeta. unfold grid_stores.
  rewrite !omap_app.
  rewrite (omap_imap_None _ (delivered x)) by done.
  cbn [omap list_omap app]. apply elem_of_app.
  destruct i as [|i].
  - left. rewrite Z.add_0_r. by apply row_events_stores_elem.
  - right.
    replace ((gi + Z.of_nat (S i)) * nrx)
      with ((gi + 1 + Z.of_nat i) * nrx) by lia.
    apply (IH xs (gi + 1) (after_burst buffer x) i j t r); try done.
    cbn in Hxs. lia.
Qed.

Lemma scan_events_allocations : forall rows xs gi buffer,
  allocations (scan_events p nrx cols gi buffer rows xs) = [].
Proof.
  induction rows as [|t rows IH]; intros [|x xs] gi buffer; try done.
  cbn [scan_events]. cbv zeta. unfold allocations.
  rewrite !omap_app.
  rewrite (omap_imap_None _ (delivered x)) by done.
  cbn [omap list_omap app].
  fold (allocations (row_events p (after_burst buffer x) (gi * nrx) cols)).
  rewrite row_events_allocations. apply IH.
Qed.

Lemma scan_events_loads : forall rows xs gi buffer,
  Forall (fun off => 0 <= off < 2 * NUM_RX)
         (buffer_loads (scan_events p nrx cols gi buffer rows xs)).
Proof.
  induction rows as [|t rows IH]; intros [|x xs] gi buffer;
    try (by constructor).
  cbn [scan_events]. cbv zeta. unfold buffer_loads.
  rewrite !omap_app.
  rewrite (omap_imap_None _ (delivered x)) by done.
  cbn [omap list_omap app]. apply Forall_app. split.
  - by apply row_events_loads.
  - apply IH.
Qed.
End ScanTrace.

(** ** The grid array after a scan *)

Section Cells.
Context (b : nat) (nrx : Z) (cols : list Z).
Hypothesis stride_bounds : Z.of_nat (length cols) <= nrx.

Lemma row_heap_block buffer : forall cs pos hp cells,
  0 <= pos -> hp !! b = Some cells ->
  row_heap (block b) buffer pos cs hp =
  <[b := list_inserts (Z.to_nat pos) (sample_at buffer <$> cs) cells]> hp.
Proof.
  induction cs as [|r cs IH]; intros pos hp cells Hpos Hb; cbn.
  - by rewrite list_insert_id.
  - rewrite Hb.
    assert (Hlt : (b < length hp)%nat) by (eapply lookup_lt_Some; eauto).
    erewrite IH; [|lia|by apply list_lookup_insert_eq].
    rewrite list_insert_insert_eq.
    replace (Z.to_nat (pos + 1)) with (S (Z.to_nat pos)) by lia.
    by rewrite list_insert_inserts_lt by lia.
Qed.

Lemma scan_heap_block : forall rows xs gi buffer hp cells,
  0 <= gi -> hp !! b = Some cells ->
  scan_heap (block b) nrx cols gi buffer rows xs hp =
  <[b := scan_cells nrx cols gi buffer rows xs cells]> hp.
Proof.
  induction rows as [|t rows IH]; intros xs gi buffer hp cells Hgi Hb.
  - cbn. by rewrite list_insert_id.
  - destruct xs as [|x xs]; cbn; [by rewrite list_insert_id|].
    assert (Hlt : (b < length hp)%nat) by (eapply lookup_lt_Some; eauto).
    erewrite row_heap_block by (try done; nia).
    erewrite IH; [|lia|by apply list_lookup_insert_eq].
    by rewrite list_insert_insert_eq.
Qed.

Lemma length_scan_cells : forall rows xs gi buffer cells,
  length (scan_cells nrx cols gi buffer rows xs cells) = length cells.
Proof.
  induction rows as [|t rows IH]; intros [|x xs] gi buffer cells; cbn;
    try done.
  by rewrite IH, length_inserts.
Qed.

(** a scan leaves the cells before its first row alone *)
Lemma scan_cells_lookup_lt : forall rows xs gi buffer cells (k : nat),
  0 <= gi -> (k < Z.to_nat (gi * nrx))%nat ->
  scan_cells nrx cols gi buffer rows xs cells !! k = cells !! k.
Proof.
  induction rows as [|t rows IH]; intros [|x xs] gi buffer cells k Hgi Hk;
    cbn; try done.
  rewrite IH by nia.
  by rewrite list_lookup_inserts_lt.
Qed.

(** row [i] of the scan, column [j]: the sample of RX line [cols !! j]
    decoded from the buffer as it stands after burst [i] *)
Lemma scan_cells_lookup : forall rows xs gi buffer cells (i j : nat) t r,
  0 <= gi -> length xs = length rows ->
  rows !! i = Some t -> cols !! j = Some r ->
  (Z.to_nat ((gi + Z.of_nat i) * nrx + Z.of_nat j) < length cells)%nat ->
  scan_cells nrx cols gi buffer rows xs cells
    !! Z.to_nat ((gi + Z.of_nat i) * nrx + Z.of_nat j) =
  Some (sample_at (burst_buffer buffer xs i) r).
Proof.
  induction rows as [|t0 rows IH];
    intros [|x xs] gi buffer cells i j t r Hgi Hxs Hi Hj Hlen;
    try done.
  assert (Hjlt : (j < length cols)%nat) by (eapply lookup_lt_Some; eauto).
  destruct i as [|i]; cbn [scan_cells].
  - rewrite scan_cells_lookup_lt by nia.
    rewrite list_lookup_inserts by (rewrite ?length_fmap; nia).
    rewrite list_lookup_fmap.
    replace (Z.to_nat ((gi + Z.of_nat 0) * nrx + Z.of_nat j) -
             Z.to_nat (gi * nrx))%nat
      with j by nia.
    rewrite Hj. reflexivity.
  - replace ((gi + Z.of_nat (S i)) * nrx + Z.of_nat j)
      with ((gi + 1 + Z.of_nat i) * nrx + Z.of_nat j) by lia.
    erewrite IH; try done; try lia.
    + cbn in Hxs. lia.
    + rewrite length_inserts.
      replace ((gi + 1 + Z.of_nat i) * nrx + Z.of_nat j)
        with ((gi + Z.of_nat (S i)) * nrx + Z.of_nat j) by lia.
      done.
Qed.


End Cells.

Section Proofs.
Context (pf : Platform).
Hypothesis uint_bits_min : 16 <= uint_bits pf.

Lemma to_uint_small z : 0 <= z < 65536 -> to_uint pf z = z.
Proof.
  intros Hz. unfold to_uint. apply Z.mod_small.
  assert (2 ^ 16 <= 2 ^ uint_bits pf) by (apply Z.pow_le_mono_r; lia).
  lia.
Qed.

Lemma setRegister_eq reg val m :
  setRegister pf reg val m =
  let st :=
    to_byte (ack pf (events m) I2C_ADDRESS [to_byte reg; to_byte val]) in
  (st,
   {| self := self m; heap := heap m;
      Wire := {| txAddress := I2C_ADDRESS; txBuffer := [];
                 rxBuffer := rxBuffer (Wire m) |};
      events := events m ++
        [Transmission I2C_ADDRESS [to_byte reg; to_byte val] false st] |}).
Proof.
  cbv zeta. rewrite <- (to_byte_idemp (ack _ _ _ _)) at 1. reflexivity.
Qed.

Lemma drain_eq pending : forall i buffer m,
  rxBuffer (Wire m) = pending ->
  Forall is_byte pending ->
  0 <= i -> i + Z.of_nat (length pending) < 256 ->
  drain pending i buffer m =
  (list_inserts (Z.to_nat i) pending buffer,
   {| self := self m; heap := heap m;
      Wire := {| txAddress := txAddress (Wire m);
                 txBuffer := txBuffer (Wire m); rxBuffer := [] |};
      events := events m ++
        imap (fun k v => BufferStore (i + Z.of_nat k) v) pending |}).
Proof.
  induction pending as [|b pending IH]; intros i buffer m Hrx Hb Hi Hlen.
  - cbn. rewrite app_nil_r. destruct m as [s hp [a t r] ev].
    cbn in *. subst. reflexivity.
  - inversion Hb as [|? ? Hb1 Hb2]; subst.
    cbn [drain]. unfold mbind, M_bind at 1.
    unfold Wire_read. unfold mbind, M_bind at 1. cbn [gets].
    rewrite Hrx. cbn.
    rewrite (to_byte_small b) by done.
    cbn [length] in Hlen.
    rewrite (to_byte_small (i + 1)) by (unfold is_byte; lia).
    rewrite IH; cbn; try done; try lia.
    f_equal.
    + replace (Z.to_nat (i + 1)) with (S (Z.to_nat i)) by lia.
      symmetry. apply list_insert_inserts_lt. lia.
    + f_equal. rewrite <- app_assoc. f_equal. cbn. f_equal.
      * f_equal. lia.
      * apply imap_ext. intros k v _. cbn. f_equal. lia.
Qed.

Lemma getRegisters_eq reg size buffer m :
  0 <= size < 256 ->
  getRegisters pf reg size buffer m =
  let st := to_byte (ack pf (events m) I2C_ADDRESS [to_byte reg]) in
  let tx := Transmission I2C_ADDRESS [to_byte reg] false st in
  let d := take (Z.to_nat size)
             (to_byte <$> reply pf (events m ++ [tx]) I2C_ADDRESS size) in
  (list_inserts 0 d buffer,
   {| self := self m; heap := heap m;
      Wire := {| txAddress := I2C_ADDRESS; txBuffer := []; rxBuffer := [] |};
      events := events m ++ [tx; RequestFrom I2C_ADDRESS size d] ++
                imap (fun k v => BufferStore (Z.of_nat k) v) d |}).
Proof.
  intros Hsize. destruct m as [s hp [ta tb rb] ev].
  unfold getRegisters. run_m.
  destruct (decide (_ <> _)).
  all: rewrite drain_eq; cbn [self heap Wire events txAddress txBuffer
                              rxBuffer app]; try done.
  all: try (rewrite <- !app_assoc; reflexivity).
  all: try (apply Forall_take, Forall_to_byte).
  all: rewrite length_take; lia.
Qed.

Lemma rx_loop_eq buffer gridTxAddr : forall rxs gridRxAddr m,
  Forall is_byte buffer ->
  Forall (fun r => 0 <= r < NUM_RX) rxs ->
  0 <= gridRxAddr -> gridRxAddr + Z.of_nat (length rxs) <= NUM_RX ->
  0 <= gridTxAddr < 256 ->
  0 <= num_RX (self m) <= NUM_RX ->
  let cols := filter (fun r => Is_true (line_at (RX_lines (self m)) r)) rxs in
  let pos := gridTxAddr * num_RX (self m) + gridRxAddr in
  for_each rxs (rx_step pf buffer gridTxAddr) gridRxAddr m =
  (gridRxAddr + Z.of_nat (length cols),
   {| self := self m;
      heap := row_heap (grid (self m)) buffer pos cols (heap m);
      Wire := Wire m;
      events := events m ++ row_events (grid (self m)) buffer pos cols |}).
Proof.
  intros rxs. induction rxs as [|r rxs IH];
    intros g m Hbuf Hrxs Hg Hlen Hgi Hnrx cols pos.
  - cbn. rewrite app_nil_r, Z.add_0_r. destruct m; reflexivity.
  - inversion Hrxs as [|? ? Hr Hrxs']; subst. cbn [length] in Hlen.
    unfold NUM_RX in *.
    cbn [for_each]. unfold mbind at 1, M_bind at 1.
    subst cols. rewrite filter_cons.
    unfold rx_step at 1. unfold this, gets, mbind at 1, M_bind at 1.
    destruct (line_at (RX_lines (self m)) r) eqn:Hline.
    + rewrite decide_True by done.
      unfold buffer_load, grid_store, this, gets, emit, set_heap, mbind,
        M_bind, mret, M_ret.
      cbn [self heap Wire events].
      rewrite (to_uint_small (2 * r)) by lia.
      rewrite (to_uint_small (2 * r + 1)) by lia.
      rewrite (to_uint_small (gridTxAddr * num_RX (self m))) by nia.
      rewrite (to_uint_small (gridTxAddr * num_RX (self m) + g)) by nia.
      assert (Hel : forall k, is_byte (default 0 (buffer !! k))).
      { intros k. destruct (buffer !! k) as [x|] eqn:Hk; cbn.
        - eapply Forall_lookup_1; eauto.
        - unfold is_byte; lia. }
      rewrite to_uint_small by (apply sample_range; apply Hel).
      rewrite (to_byte_small (g + 1)) by (unfold is_byte; lia).
      rewrite IH; cbn [self heap Wire events length]; try done; try lia.
      subst pos. cbn [row_events row_heap]. fold (sample_at buffer r).
      f_equal; [lia|].
      replace (gridTxAddr * num_RX (self m) + (g + 1))
        with (gridTxAddr * num_RX (self m) + g + 1) by lia.
      f_equal. rewrite <- !app_assoc. reflexivity.
    + rewrite decide_False by (cbn; tauto).
      unfold mret, M_ret.
      rewrite IH; try done; lia.
Qed.

Lemma Forall_list_inserts {A} (P : A -> Prop) (k : list A) :
  forall i l, Forall P k -> Forall P l -> Forall P (list_inserts i k l).
Proof.
  induction k as [|y k IH]; intros i l Hk Hl; [done|].
  inversion Hk; subst. cbn. apply Forall_insert; auto.
Qed.

Lemma tx_loop_spec : forall txs buffer gridTxAddr gridRxAddr m,
  Forall is_byte buffer ->
  Forall (fun t => 0 <= t < NUM_TX) txs ->
  0 <= gridTxAddr -> gridTxAddr + Z.of_nat (length txs) <= NUM_TX ->
  0 <= num_RX (self m) <= NUM_RX ->
  let rows := filter (fun t => Is_true (line_at (TX_lines (self m)) t)) txs in
  let cols := active NUM_RX (RX_lines (self m)) in
  let nrx := num_RX (self m) in
  exists xs res m',
    for_each txs (tx_step pf) (buffer, gridTxAddr, gridRxAddr) m = (res, m') /\
    length xs = length rows /\ Forall RowIO_ok xs /\
    self m' = self m /\
    heap m' =
      scan_heap (grid (self m)) nrx cols gridTxAddr buffer rows xs (heap m) /\
    events m' =
      events m ++
      scan_events (grid (self m)) nrx cols gridTxAddr buffer rows xs.
Proof.
  intros txs. induction txs as [|t txs IH];
    intros buffer gi g m Hbuf Htxs Hgi Hlen Hnrx rows cols nrx.
  - exists [], (buffer, gi, g), m. cbn. rewrite app_nil_r. done.
  - inversion Htxs as [|? ? Ht Htxs']; subst. cbn [length] in Hlen.
    assert (Hsel : 0 <= NUM_TX - 1 - t < 256 /\ 0 <= gi + 1 < 256)
      by (unfold NUM_TX in *; lia).
    subst rows. rewrite filter_cons.
    cbn [for_each]. unfold mbind at 1, M_bind at 1.
    unfold tx_step at 1. unfold this, gets, mbind at 1, M_bind at 1.
    destruct (line_at (TX_lines (self m)) t) eqn:Hline.
    + rewrite decide_True by done.
      unfold mbind at 1, M_bind at 1.
      rewrite setRegister_eq. cbv zeta.
      rewrite (to_uint_small (NUM_TX - 1 - t)) by lia.
      rewrite (to_byte_small (NUM_TX - 1 - t)) by (unfold is_byte; lia).
      rewrite (to_byte_small (NUM_TX - 1 - t)) by (unfold is_byte; lia).
      change (to_byte 1) with 1.
      set (s1 := to_byte (ack pf _ _ _)).
      unfold mbind at 1, M_bind at 1, emit at 1.
      cbn [self heap Wire events].
      unfold mbind at 1, M_bind at 1.
      change (to_byte (2 * NUM_RX)) with 24.
      rewrite getRegisters_eq by lia. cbv zeta.
      cbn [self heap Wire events].
      change (to_byte 16) with 16.
      set (s2 := to_byte (ack pf _ _ _)).
      set (d := take _ _).
      assert (Hd : Forall is_byte d)
        by (apply Forall_take, Forall_to_byte).
      assert (Hdl : (length d <= 24)%nat)
        by (subst d; rewrite length_take; lia).
      set (x := (s1, s2, d) : RowIO).
      assert (Hbuf' : Forall is_byte (after_burst buffer x))
        by (apply Forall_list_inserts; done).
      unfold mbind at 1, M_bind at 1.
      rewrite rx_loop_eq; cbn [self heap Wire events]; try done.
      2:{ apply range_bounds. }
      2:{ unfold NUM_TX in *; lia. }
      unfold mret, M_ret.
      rewrite Z.add_0_r.
      fold (active NUM_RX (RX_lines (self m))). fold cols.
      rewrite (to_byte_small (gi + 1)) by (unfold is_byte; lia).
      match goal with |- context [for_each txs _ _ ?m1] =>
        destruct (IH (after_burst buffer x) (gi + 1) (0 + Z.of_nat (length cols))
                     m1 Hbuf' Htxs' ltac:(lia) ltac:(unfold NUM_TX in *; lia)
                     Hnrx)
          as (xs & res & m' & Hrun & Hxs & Hok & Hself & Hheap & Hev)
      end.
      cbn [self heap Wire events] in Hrun, Hxs, Hself, Hheap, Hev.
      exists (x :: xs), res, m'.
      split; [exact Hrun|].
      split; [cbn [length]; congruence|].
      split; [constructor; [split; done|done]|].
      split; [done|].
      split.
      * rewrite Hheap. reflexivity.
      * rewrite Hev. cbn [scan_events]. cbv zeta.
        change (x.1.1) with s1. change (x.1.2) with s2.
        change (delivered x) with d. change (2 * NUM_RX) with 24.
        rewrite <- !app_assoc. reflexivity.
    + rewrite decide_False by (cbn; tauto).
      unfold mret, M_ret.
      apply IH; try done; unfold NUM_TX in *; lia.
Qed.

Lemma getRawData_spec m :
  0 <= num_RX (self m) <= NUM_RX ->
  let rows := active NUM_TX (TX_lines (self m)) in
  let cols := active NUM_RX (RX_lines (self m)) in
  let nrx := num_RX (self m) in
  exists st0 buffer0 xs m',
    getRawData pf m = (tt, m') /\
    Forall is_byte buffer0 /\ length buffer0 = Z.to_nat (2 * NUM_RX) /\
    length xs = length rows /\ Forall RowIO_ok xs /\
    self m' = self m /\
    heap m' = scan_heap (grid (self m)) nrx cols 0 buffer0 rows xs (heap m) /\
    events m' =
      events m ++
      Transmission I2C_ADDRESS [0x00; 0xC0] false st0 ::
      scan_events (grid (self m)) nrx cols 0 buffer0 rows xs.
Proof.
  intros Hnrx rows cols nrx. unfold getRawData.
  unfold mbind at 1, M_bind at 1. rewrite setRegister_eq. cbv zeta.
  change (to_byte (to_byte 0)) with 0.
  change (to_byte (to_byte 192)) with 192.
  set (st0 := to_byte (ack pf _ _ _)).
  unfold mbind at 1, M_bind at 1.
  unfold local_buffer at 1, gets, mbind at 1, M_bind at 1, mret, M_ret.
  cbn [self heap Wire events].
  set (buffer0 := _ <$> seq 0 _).
  unfold mbind at 1, M_bind at 1.
  match goal with |- context [for_each _ _ _ ?m1] =>
    destruct (tx_loop_spec (range NUM_TX) buffer0 0 0 m1)
      as (xs & res & m' & Hrun & Hxs & Hok & Hself & Hheap & Hev)
  end.
  { subst buffer0. apply Forall_fmap, Forall_true. intros k. cbn.
    apply to_byte_range. }
  { apply range_bounds. }
  { done. }
  { rewrite length_range. unfold NUM_TX. lia. }
  { done. }
  cbn [self heap Wire events] in Hrun, Hxs, Hself, Hheap, Hev.
  exists st0, buffer0, xs, m'. rewrite Hrun.
  split; [done|].
  split; [subst buffer0; apply Forall_fmap, Forall_true; intros k; cbn;
          apply to_byte_range|].
  split; [subst buffer0; by rewrite length_fmap, length_seq|].
  split; [exact Hxs|]. split; [done|]. split; [done|].
  split; [exact Hheap|].
  rewrite Hev, <- app_assoc. reflexivity.
Qed.

Lemma stride_ok_bounds m : stride_ok m -> 0 <= num_RX (self m) <= NUM_RX.
Proof. unfold stride_ok. lia. Qed.

Lemma stride_ok_NUM_RX m : num_RX (self m) = NUM_RX -> stride_ok m.
Proof.
  intros Hnrx. unfold stride_ok, countActive. rewrite Hnrx.
  pose proof (active_length NUM_RX (RX_lines (self m))).
  unfold NUM_RX in *. lia.
Qed.

(** a scan through a pointer to an allocated array *)
Lemma getRawData_block m b cells :
  grid (self m) = block b ->
  heap m !! b = Some cells ->
  stride_ok m ->
  let rows := active NUM_TX (TX_lines (self m)) in
  let cols := active NUM_RX (RX_lines (self m)) in
  let nrx := num_RX (self m) in
  exists st0 buffer0 xs m',
    getRawData pf m = (tt, m') /\
    Forall is_byte buffer0 /\ length buffer0 = Z.to_nat (2 * NUM_RX) /\
    length xs = length rows /\ Forall RowIO_ok xs /\
    self m' = self m /\
    heap m' = <[b := scan_cells nrx cols 0 buffer0 rows xs cells]> (heap m) /\
    events m' =
      events m ++
      Transmission I2C_ADDRESS [0x00; 0xC0] false st0 ::
      scan_events (block b) nrx cols 0 buffer0 rows xs.
Proof.
  intros Hgrid Hb Hnrx rows cols nrx.
  destruct (getRawData_spec m (stride_ok_bounds m Hnrx))
    as (st0 & buffer0 & xs & m' & Hrun & Hbytes & Hlen & Hxs & Hok & Hself &
        Hheap & Hev).
  exists st0, buffer0, xs, m'. rewrite Hgrid in Hheap, Hev.
  erewrite scan_heap_block in Hheap; try done.
  apply Hnrx.
Qed.

(** ** The scan: getRawData *)


(** C5. The values written to the TX-select register 0x01 during a scan
    are [NUM_TX - 1 - t] for the scanned TX lines [t], in scan order; line
    0 is selected by writing 20 and line 20 by writing 0. *)
Theorem getRawData_tx_select_inverted m :
  stride_ok m ->
  exists m' scan,
    getRawData pf m = (tt, m') /\
    events m' = events m ++ scan /\
    tx_selects scan =
      (fun t => NUM_TX - 1 - t) <$> active NUM_TX (TX_lines (self m)) /\
    NUM_TX - 1 - 0 = 20 /\ NUM_TX - 1 - 20 = 0.
Proof.
  intros Hnrx.
  destruct (getRawData_spec m (stride_ok_bounds m Hnrx))
    as (st0 & buffer0 & xs & m' & Hrun & Hbytes & Hblen & Hxs & Hok & Hself &
        Hheap & Hev).
  eexists m', _. split; [exact Hrun|]. split; [exact Hev|].
  split; [|done].
  change (tx_selects (Transmission I2C_ADDRESS [0; 192] false st0 :: ?tr))
    with (tx_selects tr).
  by apply scan_events_tx_selects.
Qed.

(** C9. Every store of a scan goes through the grid pointer to an index
    [gridTxAddr * num_RX + gridRxAddr] below [NUM_TX * NUM_RX = 252], and
    every load from the burst buffer uses an offset below [2 * NUM_RX]. *)
Theorem getRawData_indices_in_bounds m :
  stride_ok m ->
  exists m' scan,
    getRawData pf m = (tt, m') /\
    events m' = events m ++ scan /\
    Forall (fun s => s.1.1 = grid (self m) /\
                     0 <= s.1.2 < NUM_TX * NUM_RX)
           (grid_stores scan) /\
    NUM_TX * NUM_RX = 252 /\
    Forall (fun off => 0 <= off < 2 * NUM_RX) (buffer_loads scan).
Proof.
  intros Hnrx.
  destruct (getRawData_spec m (stride_ok_bounds m Hnrx))
    as (st0 & buffer0 & xs & m' & Hrun & Hbytes & Hblen & Hxs & Hok & Hself &
        Hheap & Hev).
  pose proof (active_length NUM_TX (TX_lines (self m))) as Hrows.
  pose proof (active_bounds NUM_RX (RX_lines (self m))) as Hcb.
  assert (Hstride : Z.of_nat (length (active NUM_RX (RX_lines (self m))))
                    <= num_RX (self m) <= NUM_RX) by apply Hnrx.
  eexists m', _. split; [exact Hrun|]. split; [exact Hev|].
  split; [|split; [done|]].
  - unfold grid_stores. cbn [omap list_omap].
    eapply Forall_impl;
      [apply scan_events_stores_bounds; [apply Hstride|lia]|].
    intros s [Hp Hs]. split; [done|]. cbn beta in Hs.
    unfold NUM_RX, NUM_TX in *. nia.
  - unfold buffer_loads. cbn [omap list_omap].
    by apply scan_events_loads.
Qed.

(** C6. The sample stored for an included RX line [r] is
    [(buffer[2r] << 8) | buffer[2r+1]]: the byte at offset [2r] is the high
    byte and the byte at offset [2r+1] the low byte, so the sample is
    [256 * hi + lo], and the bytes 0x12, 0x34 give 0x1234. *)
Theorem rx_step_decodes_sample buffer gridTxAddr r gridRxAddr m hi lo :
  0 <= r < NUM_RX ->
  buffer !! Z.to_nat (2 * r) = Some hi ->
  buffer !! Z.to_nat (2 * r + 1) = Some lo ->
  is_byte hi ->
  is_byte lo ->
  line_at (RX_lines (self m)) r = true ->
  exists idx,
    events (rx_step pf buffer gridTxAddr r gridRxAddr m).2 =
      events m ++ [BufferLoad (2 * r); BufferLoad (2 * r + 1);
                   GridStore (grid (self m)) idx (Z.lor (Z.shiftl hi 8) lo)] /\
    sample_at buffer r = Z.lor (Z.shiftl hi 8) lo /\
    Z.lor (Z.shiftl hi 8) lo = hi * 256 + lo /\
    (hi = 0x12 -> lo = 0x34 -> Z.lor (Z.shiftl hi 8) lo = 0x1234).
Proof.
  intros Hr Hhi Hlo Hbh Hbl Hline.
  unfold rx_step, buffer_load, grid_store, this, gets, emit, set_heap,
    mbind, M_bind, mret, M_ret.
  rewrite Hline. cbn [self heap Wire events fst snd].
  unfold NUM_RX in Hr.
  rewrite (to_uint_small (2 * r)) by lia.
  rewrite (to_uint_small (2 * r + 1)) by lia.
  rewrite Hhi, Hlo.
  change (default 0 (Some hi)) with hi. change (default 0 (Some lo)) with lo.
  rewrite (to_uint_small (sample hi lo)) by (by apply sample_range).
  eexists. split; [rewrite <- !app_assoc; reflexivity|].
  split; [unfold sample_at; by rewrite Hhi, Hlo|].
  split; [apply sample_add; unfold is_byte in *; lia|].
  intros -> ->. reflexivity.
Qed.

(** ** Reading registers: getRegisters *)

(** C7. [getRegisters] sends the register address, asks the device for
    [size] bytes and stores what the transport delivers: [d], the first
    [size] of the bytes the device offers ([reply] of the platform), all of
    them when the device offers no more than [size].  The bytes of [d] are
    stored into the buffer in arrival order from index 0 on; the loop ends
    when nothing is left in the receive queue; the cells from index
    [length d] on keep their old contents, so with fewer than [size] bytes
    delivered the buffer is only partly filled. *)
Theorem getRegisters_drains_in_order reg size buffer m :
  0 <= size < 256 ->
  let st := to_byte (ack pf (events m) I2C_ADDRESS [to_byte reg]) in
  let tx := Transmission I2C_ADDRESS [to_byte reg] false st in
  let offered := to_byte <$> reply pf (events m ++ [tx]) I2C_ADDRESS size in
  let d := take (Z.to_nat size) offered in
  exists buffer' m',
    getRegisters pf reg size buffer m = (buffer', m') /\
    events m' =
      events m ++
      [tx; RequestFrom I2C_ADDRESS size d] ++
      imap (fun k v => BufferStore (Z.of_nat k) v) d /\
    (length d <= Z.to_nat size)%nat /\
    ((length offered <= Z.to_nat size)%nat -> d = offered) /\
    rxBuffer (Wire m') = [] /\
    length buffer' = length buffer /\
    (forall k : nat, (k < length d)%nat -> (k < length buffer)%nat ->
       buffer' !! k = d !! k) /\
    (forall k : nat, (length d <= k)%nat -> buffer' !! k = buffer !! k).
Proof.
  intros Hsize. cbv zeta. rewrite getRegisters_eq by done. cbv zeta.
  eexists _, _. split; [reflexivity|].
  split; [reflexivity|].
  split; [rewrite length_take; lia|].
  split; [intros Hle; by apply take_ge|].
  split; [reflexivity|].
  split; [apply length_inserts|].
  split.
  - intros k Hk Hkb. rewrite list_lookup_inserts by lia.
    by rewrite Nat.sub_0_r.
  - intros k Hk. by rewrite list_lookup_inserts_ge by lia.
Qed.

(** ** init *)

Lemma init_eq m :
  init pf m =
  let h := events m ++ [WireBegin; WireSetClock 400000; WireSetTimeout 200] in
  let st := mode_write_status pf m in
  let tx := Transmission I2C_ADDRESS [0x00; MODE_NORMAL] false st in
  let w := {| txAddress := I2C_ADDRESS; txBuffer := [];
              rxBuffer := rxBuffer (Wire m) |} in
  if decide (st = 0) then
    let st2 :=
      to_byte (ack pf (h ++ [tx; Delay 100]) I2C_ADDRESS [0xA7; 0x04]) in
    (false,
     {| self := {| grid := grid (self m); num_TX := num_TX (self m);
                   num_RX := num_RX (self m); isInit := true;
                   rawData := rawData (self m);
                   RX_lines := RX_lines (self m);
                   TX_lines := TX_lines (self m) |};
        heap := heap m; Wire := w;
        events := h ++ [tx; Delay 100;
                        Transmission I2C_ADDRESS [0xA7; 0x04] false st2] |})
  else
    (true,
     {| self := self m; heap := heap m; Wire := w;
        events := h ++ [tx; SerialPrintln
          "[UnipdSkin] Error: I2C Connection Failed. Check SDA/SCL."] |}).
Proof.
  destruct m as [s hp [ta tb rb] ev]. unfold init, mode_write_status.
  run_m. cbn [app].
  rewrite <- !app_assoc. cbn [app].
  change (to_byte 0) with 0. change (to_byte MODE_NORMAL) with 0.
  change MODE_NORMAL with 0.
  rewrite to_byte_idemp.
  destruct (decide (to_byte _ = 0)); cbn; rewrite <- ?app_assoc; reflexivity.
Qed.

(** C3. [init] writes MODE_NORMAL to the mode register 0x00, and what it
    does next depends on nothing but the status [st] the bus returns for
    that write ([mode_write_status]: the answer [ack] of the platform,
    taken as a byte).  If [st] is not zero, [init] returns the failure
    value and the object is left as it was ([isInit] is not set).  If [st]
    is zero, [init] waits 100 ms, sets [isInit], writes 0x04 to register
    0xA7 and returns the success value, whatever status [st2] the bus
    returns for that second write. *)
Theorem init_checks_mode_write_only m :
  let h := events m ++ [WireBegin; WireSetClock 400000; WireSetTimeout 200] in
  let st := to_byte (ack pf h I2C_ADDRESS [0x00; MODE_NORMAL]) in
  let tx := Transmission I2C_ADDRESS [0x00; MODE_NORMAL] false st in
  let st2 := to_byte (ack pf (h ++ [tx; Delay 100]) I2C_ADDRESS [0xA7; 0x04]) in
  exists r m' rest,
    init pf m = (r, m') /\
    events m' = h ++ [tx] ++ rest /\
    heap m' = heap m /\
    (st <> 0 ->
       r = true /\ self m' = self m /\
       (isInit (self m) = false -> isInit (self m') = false) /\
       rest = [SerialPrintln
         "[UnipdSkin] Error: I2C Connection Failed. Check SDA/SCL."]) /\
    (st = 0 ->
       r = false /\ isInit (self m') = true /\
       grid (self m') = grid (self m) /\
       rawData (self m') = rawData (self m) /\
       num_TX (self m') = num_TX (self m) /\
       num_RX (self m') = num_RX (self m) /\
       RX_lines (self m') = RX_lines (self m) /\
       TX_lines (self m') = TX_lines (self m) /\
       rest = [Delay 100;
               Transmission I2C_ADDRESS [0xA7; 0x04] false st2]).
Proof.
  cbv zeta. rewrite init_eq. cbv zeta. unfold mode_write_status.
  destruct (decide (_ = 0)) as [Hst|Hst].
  - eexists _, _, _.
    split; [reflexivity|]. cbn [events heap self].
    split; [reflexivity|].
    split; [done|]. split; [done|].
    intros _. done.
  - eexists _, _, _.
    split; [reflexivity|]. cbn [events heap self].
    split; [reflexivity|].
    split; [done|]. split; [|done].
    intros _. done.
Qed.

(** C10. [init] returns [true] exactly when the mode-register write
    reported a non-zero status, that is when initialisation failed, and
    [false] when it succeeded (and [isInit] has been set): the value 1 of
    the header's "Returns 0 on success, 1 on failure" read as a bool. *)
Theorem init_returns_true_iff_failed m :
  ((init pf m).1 = true <-> mode_write_status pf m <> 0) /\
  ((init pf m).1 = false <-> mode_write_status pf m = 0) /\
  ((init pf m).1 = false -> isInit (self (init pf m).2) = true) /\
  ((init pf m).1 = true -> self (init pf m).2 = self m) /\
  Transmission I2C_ADDRESS [0x00; MODE_NORMAL] false (mode_write_status pf m)
    ∈ events (init pf m).2.
Proof.
  rewrite init_eq. cbv zeta.
  destruct (decide (mode_write_status pf m = 0)) as [Hst|Hst];
    cbn [fst snd self events isInit].
  - repeat split; try done.
    rewrite !elem_of_app. right. apply list_elem_of_here.
  - repeat split; try done.
    rewrite !elem_of_app. right. apply list_elem_of_here.
Qed.

(** ** updated *)

(** a scan stores to every compacted position, and the value stored is
    what the cell holds afterwards *)
Lemma getRawData_rewrites m :
  stride_ok m ->
  exists m' scan,
    getRawData pf m = (tt, m') /\
    events m' = events m ++ scan /\
    register_writes scan =
      (0x00, 0xC0) ::
      ((fun t => (0x01, NUM_TX - 1 - t)) <$> active NUM_TX (TX_lines (self m)))
    /\
    forall i j : nat,
      (i < countActive NUM_TX (TX_lines (self m)))%nat ->
      (j < countActive NUM_RX (RX_lines (self m)))%nat ->
      exists v,
        (grid (self m), Z.of_nat i * num_RX (self m) + Z.of_nat j, v)
          ∈ grid_stores scan /\
        forall b cells,
          grid (self m) = block b -> heap m !! b = Some cells ->
          length cells = Z.to_nat (NUM_TX * NUM_RX) ->
          exists cells',
            heap m' !! b = Some cells' /\
            cells' !! Z.to_nat (Z.of_nat i * num_RX (self m) + Z.of_nat j)
              = Some v.
Proof.
  intros Hnrx.
  pose proof (active_length NUM_TX (TX_lines (self m))) as Hrows.
  assert (Hstride : Z.of_nat (length (active NUM_RX (RX_lines (self m))))
                    <= num_RX (self m) <= NUM_RX) by apply Hnrx.
  assert (Hcase : exists st0 buffer0 xs m',
    getRawData pf m = (tt, m') /\
    length xs = length (active NUM_TX (TX_lines (self m))) /\
    events m' = events m ++
      Transmission I2C_ADDRESS [0x00; 0xC0] false st0 ::
      scan_events (grid (self m)) (num_RX (self m))
                  (active NUM_RX (RX_lines (self m))) 0
                  buffer0 (active NUM_TX (TX_lines (self m))) xs /\
    forall b cells, grid (self m) = block b -> heap m !! b = Some cells ->
      heap m' =
      <[b := scan_cells (num_RX (self m))
                        (active NUM_RX (RX_lines (self m))) 0 buffer0
                        (active NUM_TX (TX_lines (self m))) xs cells]>
        (heap m)).
  { destruct (grid (self m)) as [|b] eqn:Hg;
      [|destruct (heap m !! b) as [cells|] eqn:Hb].
    - destruct (getRawData_spec m (stride_ok_bounds m Hnrx))
        as (st0 & buffer0 & xs & m' & Hrun & _ & _ & Hxs & _ & _ & _ & Hev).
      exists st0, buffer0, xs, m'. rewrite Hg in Hev. done.
    - destruct (getRawData_block m b cells Hg Hb Hnrx)
        as (st0 & buffer0 & xs & m' & Hrun & _ & _ & Hxs & _ & _ & Hheap & Hev).
      exists st0, buffer0, xs, m'. repeat split; try done.
      intros b' cells' [= <-] Hb'. rewrite Hb in Hb'. by injection Hb' as <-.
    - destruct (getRawData_spec m (stride_ok_bounds m Hnrx))
        as (st0 & buffer0 & xs & m' & Hrun & _ & _ & Hxs & _ & _ & _ & Hev).
      exists st0, buffer0, xs, m'. rewrite Hg in Hev. repeat split; try done.
      intros b' cells' [= <-] Hb'. congruence. }
  destruct Hcase as (st0 & buffer0 & xs & m' & Hrun & Hxs & Hev & Hheap).
  eexists m', _. split; [exact Hrun|]. split; [exact Hev|]. split.
  { change (register_writes (Transmission I2C_ADDRESS [0; 192] false st0 :: ?tr))
      with ((0, 192) :: register_writes tr).
    f_equal. apply scan_events_register_writes; done. }
  intros i j Hi Hj. unfold countActive in Hi, Hj.
  destruct (lookup_lt_is_Some_2 _ _ Hi) as [t Ht].
  destruct (lookup_lt_is_Some_2 _ _ Hj) as [r Hr].
  exists (sample_at (burst_buffer buffer0 xs i) r). split.
  - change (grid_stores (Transmission I2C_ADDRESS [0; 192] false st0 :: ?tr))
      with (grid_stores tr).
    replace (Z.of_nat i * num_RX (self m) + Z.of_nat j)
      with ((0 + Z.of_nat i) * num_RX (self m) + Z.of_nat j) by lia.
    eapply scan_events_stores_elem; done.
  - intros b cells Hg Hb Hlen. rewrite (Hheap b cells Hg Hb).
    assert (Hblt : (b < length (heap m))%nat)
      by (eapply lookup_lt_Some; eauto).
    eexists. split; [by apply list_lookup_insert_eq|].
    replace (Z.of_nat i * num_RX (self m) + Z.of_nat j)
      with ((0 + Z.of_nat i) * num_RX (self m) + Z.of_nat j) by lia.
    assert ((i < length (active NUM_TX (TX_lines (self m))))%nat /\
            (j < length (active NUM_RX (RX_lines (self m))))%nat)
      as [Hil Hjl] by done.
    eapply scan_cells_lookup; try done; try lia.
    unfold NUM_RX, NUM_TX in *. nia.
Qed.

(** C2. [updated] returns [true] exactly when [isInit] and [rawData] are
    both true.  In that case it has run one scan ([getRawData]): one write
    of 0xC0 to the mode register followed by the TX-select writes of the
    included lines, and a store to every compacted position of the grid,
    whose value the cell holds on return; with all NUM_TX and NUM_RX lines
    included every cell of the array is stored to.  In every other case it
    returns [false] and leaves the machine untouched. *)
Theorem updated_true_iff_scanned m :
  exists r m',
    updated pf m = (r, m') /\
    (r = true <-> isInit (self m) = true /\ rawData (self m) = true) /\
    (r = false -> m' = m) /\
    (r = true ->
       getRawData pf m = (tt, m') /\
       (stride_ok m ->
        exists scan,
          events m' = events m ++ scan /\
          register_writes scan =
            (0x00, 0xC0) ::
            ((fun t => (0x01, NUM_TX - 1 - t)) <$>
             active NUM_TX (TX_lines (self m))) /\
          (forall i j : nat,
             (i < countActive NUM_TX (TX_lines (self m)))%nat ->
             (j < countActive NUM_RX (RX_lines (self m)))%nat ->
             exists v,
               (grid (self m), Z.of_nat i * num_RX (self m) + Z.of_nat j, v)
                 ∈ grid_stores scan /\
               forall b cells,
                 grid (self m) = block b -> heap m !! b = Some cells ->
                 length cells = Z.to_nat (NUM_TX * NUM_RX) ->
                 exists cells',
                   heap m' !! b = Some cells' /\
                   cells' !! Z.to_nat
                     (Z.of_nat i * num_RX (self m) + Z.of_nat j) = Some v) /\
          (countActive NUM_TX (TX_lines (self m)) = Z.to_nat NUM_TX ->
           countActive NUM_RX (RX_lines (self m)) = Z.to_nat NUM_RX ->
           forall k, 0 <= k < NUM_TX * NUM_RX ->
             exists v, (grid (self m), k, v) ∈ grid_stores scan))).
Proof.
  unfold updated, this, gets, mbind, M_bind, mret, M_ret.
  destruct (isInit (self m)) eqn:Hinit; cbn [negb].
  2:{ exists false, m. repeat split; try done. by intros [? ?]. }
  destruct (rawData (self m)) eqn:Hraw.
  2:{ exists false, m. repeat split; try done. by intros [? ?]. }
  destruct (getRawData pf m) as [[] m'] eqn:Hrun.
  exists true, m'. repeat split; try done.
  intros Hnrx.
  destruct (getRawData_rewrites m Hnrx)
    as (m'' & scan & Hrun' & Hev & Hregs & Hcells).
  rewrite Hrun in Hrun'. injection Hrun' as <-.
  exists scan. repeat split; try done.
  intros HTX HRX k Hk.
  assert (Hfull : num_RX (self m) = NUM_RX).
  { destruct Hnrx as [Hlo Hhi]. rewrite HRX in Hlo.
    unfold NUM_RX in *. lia. }
  destruct (Hcells (Z.to_nat (k / NUM_RX)) (Z.to_nat (k mod NUM_RX)))
    as (v & Hv & _).
  - rewrite HTX. unfold NUM_TX, NUM_RX in *.
    assert (k / 12 < 21) by (apply Z.div_lt_upper_bound; lia).
    assert (0 <= k / 12) by (apply Z.div_pos; lia). lia.
  - rewrite HRX. unfold NUM_RX in *.
    pose proof (Z.mod_pos_bound k 12 ltac:(lia)). lia.
  - exists v. rewrite Hfull in Hv.
    replace k with (Z.of_nat (Z.to_nat (k / NUM_RX)) * NUM_RX +
                    Z.of_nat (Z.to_nat (k mod NUM_RX))) at 1; [done|].
    unfold NUM_RX in *.
    pose proof (Z.mod_pos_bound k 12 ltac:(lia)).
    assert (0 <= k / 12) by (apply Z.div_pos; lia).
    rewrite !Z2Nat.id by lia.
    pose proof (Z.div_mod k 12 ltac:(lia)). lia.
Qed.

(** ** Sequences of calls *)

Lemma updated_eq m :
  updated pf m =
  if isInit (self m) && rawData (self m)
  then (true, (getRawData pf m).2) else (false, m).
Proof.
  unfold updated, this, gets, mbind, M_bind, mret, M_ret.
  destruct (isInit (self m)), (rawData (self m)); cbn; try done.
  by destruct (getRawData pf m).
Qed.

Lemma useRawData_eq useRaw m :
  useRawData pf useRaw m =
  let n := to_uint pf (num_TX (self m) * num_RX (self m)) in
  let b := length (heap m) in
  let fresh := grid (self m) = nullptr in
  let cells := (fun k => to_uint pf (heap_junk pf
                  (events m ++ [AllocCheck (bool_decide fresh)]) k)) <$>
               seq 0 (Z.to_nat n) in
  let tr1 := events m ++ [AllocCheck (bool_decide fresh)] ++
             (if decide fresh then [New b n] else []) in
  let st := to_byte (ack pf tr1 I2C_ADDRESS [0x00; MODE_TEST]) in
  let switch := isInit (self m) && useRaw in
  (tt,
   {| self := {| grid := if decide fresh then block b else grid (self m);
                 num_TX := num_TX (self m); num_RX := num_RX (self m);
                 isInit := isInit (self m); rawData := useRaw;
                 RX_lines := RX_lines (self m);
                 TX_lines := TX_lines (self m) |};
      heap := if decide fresh then heap m ++ [cells] else heap m;
      Wire := if switch
              then {| txAddress := I2C_ADDRESS; txBuffer := [];
                      rxBuffer := rxBuffer (Wire m) |}
              else Wire m;
      events := tr1 ++
        (if switch
         then [Transmission I2C_ADDRESS [0x00; MODE_TEST] false st;
               SerialPrintln "[UnipdSkin] Mode set to Raw Data Stream"]
         else []) |}).
Proof.
  destruct m as [[g nt nr ii rd rx tx] hp [ta tb rb] ev].
  unfold useRawData, new_uint_array. run_m.
  cbn [grid num_TX num_RX isInit rawData RX_lines TX_lines].
  destruct (decide (g = nullptr)) as [Hg|Hg];
    destruct ii, useRaw;
    cbn [andb app grid num_TX num_RX isInit rawData RX_lines TX_lines];
    rewrite <- ?app_assoc, ?app_nil_r; cbn [app];
    rewrite ?to_byte_idemp; try reflexivity.
Qed.

Lemma run_cons c cs m : run pf (c :: cs) m = run pf cs (call pf c m).2.
Proof.
  unfold run. cbn [for_each]. unfold mbind, M_bind.
  by destruct (call pf c m) as [[] m1].
Qed.

Lemma guarded_app tr new :
  guarded tr ->
  (grid_stores new = [] \/ exists was_null, AllocCheck was_null ∈ tr) ->
  guarded (tr ++ new).
Proof.
  intros Hg Hnew pre p idx v post Heq.
  apply app_eq_inv in Heq as [(k & Htr & Hk)|(k & Hpre & Hk)].
  - destruct k as [|e k].
    + cbn in Hk. rewrite app_nil_r in Htr. subst pre.
      destruct Hnew as [Hnone|[w Hw]]; [|eauto].
      rewrite <- Hk in Hnone. done.
    + injection Hk as <- ->. eapply Hg. exact Htr.
  - subst pre. destruct Hnew as [Hnone|[w Hw]].
    + rewrite Hk in Hnone. unfold grid_stores in Hnone.
      rewrite omap_app in Hnone. cbn in Hnone.
      by destruct (omap _ k).
    + exists w. apply elem_of_app. by left.
Qed.

Lemma init_frame m :
  exists new,
    call_frame m (init pf m).2 new /\
    grid_stores new = [] /\ allocations new = [] /\
    (forall w, AllocCheck w ∉ new) /\
    heap (init pf m).2 = heap m /\
    grid (self (init pf m).2) = grid (self m) /\
    rawData (self (init pf m).2) = rawData (self m).
Proof.
  rewrite init_eq. cbv zeta. unfold call_frame.
  destruct (decide _); cbn [snd self heap events grid rawData num_TX num_RX];
    rewrite <- app_assoc;
    eexists; (split; [split; [reflexivity|done]|]);
    repeat split; try done; intros w Hw; cbn [app] in Hw;
    rewrite !elem_of_cons, elem_of_nil in Hw; intuition discriminate.
Qed.

Lemma getRawData_frame m :
  stride_ok m ->
  exists new,
    call_frame m (getRawData pf m).2 new /\
    allocations new = [] /\
    Forall (fun s => s.1.1 = grid (self m) /\
                     0 <= s.1.2 < NUM_TX * NUM_RX) (grid_stores new) /\
    self (getRawData pf m).2 = self m /\
    length (heap (getRawData pf m).2) = length (heap m) /\
    (forall b cells, heap m !! b = Some cells ->
       exists cells', heap (getRawData pf m).2 !! b = Some cells' /\
                      length cells' = length cells).
Proof.
  intros Hnrx.
  pose proof (active_length NUM_TX (TX_lines (self m))) as Hrows.
  assert (Hstride : Z.of_nat (length (active NUM_RX (RX_lines (self m))))
                    <= num_RX (self m) <= NUM_RX) by apply Hnrx.
  destruct (getRawData_spec m (stride_ok_bounds m Hnrx))
    as (st0 & buffer0 & xs & m' & Hrun & _ & _ & Hxs & _ & Hself & Hheap & Hev).
  rewrite Hrun. cbn [snd]. eexists. unfold call_frame.
  split; [split; [exact Hev|by rewrite Hself]|].
  split.
  { change (allocations (Transmission I2C_ADDRESS [0; 192] false st0 :: ?tr))
      with (allocations tr). by apply scan_events_allocations. }
  split.
  { change (grid_stores (Transmission I2C_ADDRESS [0; 192] false st0 :: ?tr))
      with (grid_stores tr).
    eapply Forall_impl;
      [apply scan_events_stores_bounds; [apply Hstride|lia]|].
    intros s [Hp Hs]. split; [done|]. cbn beta in Hs.
    unfold NUM_RX, NUM_TX in *. nia. }
  split; [done|].
  destruct (grid (self m)) as [|b0] eqn:Hg.
  { assert (Hsame : forall rows xs gi buffer hp,
      scan_heap nullptr (num_RX (self m))
                (active NUM_RX (RX_lines (self m))) gi buffer rows xs hp
      = hp).
    { assert (Hrow : forall cs pos buffer hp,
        row_heap nullptr buffer pos cs hp = hp)
        by (induction cs; intros; cbn; auto).
      induction rows as [|t rows IH]; intros [|x xs'] gi buffer hp; cbn;
        try done. by rewrite Hrow, IH. }
    rewrite Hsame in Hheap. rewrite Hheap. eauto. }
  destruct (heap m !! b0) as [cells0|] eqn:Hb0.
  - erewrite scan_heap_block in Hheap by (try done; apply Hstride).
    rewrite Hheap.
    split; [apply length_insert|].
    intros b cells Hb. destruct (decide (b = b0)) as [->|Hne].
    + rewrite list_lookup_insert_eq by (eapply lookup_lt_Some; eauto).
      eexists. split; [done|]. rewrite length_scan_cells. congruence.
    + rewrite list_lookup_insert_ne by done. eauto.
  - assert (Hsame : forall rows xs gi buffer,
      scan_heap (block b0) (num_RX (self m))
                (active NUM_RX (RX_lines (self m))) gi buffer
                rows xs (heap m) = heap m).
    { assert (Hrow : forall cs pos buffer,
        row_heap (block b0) buffer pos cs (heap m) = heap m).
      { induction cs as [|r cs IHc]; intros; cbn; [done|].
        by rewrite Hb0, IHc. }
      induction rows as [|t rows IH]; intros [|x xs'] gi buffer; cbn;
        try done. by rewrite Hrow, IH. }
    rewrite Hsame in Hheap. rewrite Hheap. eauto.
Qed.

Lemma grid_stores_app tr1 tr2 :
  grid_stores (tr1 ++ tr2) = grid_stores tr1 ++ grid_stores tr2.
Proof. apply omap_app. Qed.

Lemma allocations_app tr1 tr2 :
  allocations (tr1 ++ tr2) = allocations tr1 ++ allocations tr2.
Proof. apply omap_app. Qed.

Lemma useRawData_frame useRaw m :
  exists new,
    call_frame m (useRawData pf useRaw m).2 new /\
    grid_stores new = [] /\
    AllocCheck (bool_decide (grid (self m) = nullptr)) ∈ new /\
    rawData (self (useRawData pf useRaw m).2) = useRaw /\
    (grid (self m) <> nullptr ->
       allocations new = [] /\
       heap (useRawData pf useRaw m).2 = heap m /\
       grid (self (useRawData pf useRaw m).2) = grid (self m)).
Proof.
  rewrite useRawData_eq. cbv zeta. unfold call_frame.
  cbn [snd self heap events grid rawData num_TX num_RX].
  rewrite <- app_assoc. eexists.
  split; [split; [reflexivity|done]|].
  split.
  { rewrite !grid_stores_app.
    destruct (decide _), (isInit (self m) && useRaw); reflexivity. }
  split; [apply elem_of_app; left; apply list_elem_of_here|].
  split; [done|].
  intros Hg. rewrite !decide_False by done.
  rewrite !allocations_app.
  destruct (isInit (self m) && useRaw); done.
Qed.

Lemma call_snd c m :
  (call pf c m).2 =
  match c with
  | CallInit => (init pf m).2
  | CallUseRawData useRaw => (useRawData pf useRaw m).2
  | CallUpdated => (updated pf m).2
  end.
Proof.
  destruct c; cbn [call]; unfold mbind, M_bind, mret, M_ret; try done.
  - by destruct (init pf m).
  - by destruct (updated pf m).
Qed.

Lemma call_frame_any c m :
  num_RX (self m) = NUM_RX ->
  exists new,
    call_frame m (call pf c m).2 new /\
    (grid_stores new = [] \/
     (c = CallUpdated /\ rawData (self m) = true)) /\
    (rawData (self (call pf c m).2) = true ->
     rawData (self m) = true \/ exists w, AllocCheck w ∈ new) /\
    (grid_stores new = [] \/ forall useRaw, c <> CallUseRawData useRaw).
Proof.
  intros Hnrx. rewrite call_snd. destruct c as [|useRaw|].
  - destruct (init_frame m) as (new & Hf & Hs & _ & _ & _ & _ & Hraw).
    exists new. rewrite Hraw. eauto 10.
  - destruct (useRawData_frame useRaw m) as (new & Hf & Hs & Hc & _).
    exists new. eauto 10.
  - rewrite updated_eq.
    destruct (isInit (self m) && rawData (self m)) eqn:Hcond; cbn [snd].
    + apply andb_prop in Hcond as [_ Hraw].
      destruct (getRawData_frame m (stride_ok_NUM_RX m Hnrx))
        as (new & Hf & _ & _ & Hself & _).
      exists new. rewrite Hself.
      split; [done|]. split; [eauto|]. split; [eauto|].
      right. done.
    + exists []. unfold call_frame. rewrite app_nil_r. eauto 10.
Qed.

Lemma run_guarded : forall cs m,
  num_RX (self m) = NUM_RX ->
  guarded (events m) ->
  (rawData (self m) = true -> exists w, AllocCheck w ∈ events m) ->
  guarded (events (run pf cs m)).
Proof.
  induction cs as [|c cs IH]; intros m Hnrx Hg Hraw; [done|].
  rewrite run_cons.
  destruct (call_frame_any c m Hnrx)
    as (new & (Hev & _ & Hnrx') & Hstores & Hraw' & _).
  apply IH.
  - congruence.
  - rewrite Hev. apply guarded_app; [done|].
    destruct Hstores as [Hnone|[_ Hr]]; [by left|right; auto].
  - intros Hr. rewrite Hev.
    destruct (Hraw' Hr) as [Hold|[w Hw]].
    + destruct (Hraw Hold) as [w Hw]. exists w. apply elem_of_app; by left.
    + exists w. apply elem_of_app; by right.
Qed.

Lemma run_without_useRawData : forall cs m,
  (forall useRaw, CallUseRawData useRaw ∉ cs) ->
  num_RX (self m) = NUM_RX ->
  rawData (self m) = false ->
  grid_stores (events m) = [] ->
  grid_stores (events (run pf cs m)) = [].
Proof.
  induction cs as [|c cs IH]; intros m Hcs Hnrx Hraw Hs; [done|].
  rewrite run_cons.
  destruct (call_frame_any c m Hnrx)
    as (new & (Hev & _ & Hnrx') & Hstores & Hraw' & Hc).
  assert (Hnew : grid_stores new = []).
  { destruct Hstores as [?|[_ ?]]; [done|congruence]. }
  apply IH.
  - intros useRaw Hin. apply (Hcs useRaw). by apply list_elem_of_further.
  - congruence.
  - destruct (rawData (self (call pf c m).2)) eqn:Hr; [|done].
    destruct (Hraw' eq_refl) as [?|[w Hw]]; [congruence|].
    destruct c as [|useRaw|].
    + exfalso. destruct (init_frame m) as (new' & (Hev' & _) & _ & _ & Hno & _).
      rewrite call_snd in Hev.
      rewrite Hev' in Hev. apply app_inv_head in Hev. subst new'.
      by apply (Hno w).
    + exfalso. apply (Hcs useRaw). apply list_elem_of_here.
    + rewrite call_snd, updated_eq, Hraw, andb_false_r in Hr. cbn [snd] in Hr.
      congruence.
  - by rewrite Hev, grid_stores_app, Hs, Hnew.
Qed.

(** *** An object that starts with a null grid pointer *)

Lemma power_on_unallocated : unallocated (power_on nullptr).
Proof. by repeat split. Qed.

Lemma useRawData_allocates useRaw m :
  unallocated m -> allocated (useRawData pf useRaw m).2.
Proof.
  intros (Hntx & Hnrx & Hg & Hheap & Hraw & Hal & Hst).
  rewrite useRawData_eq. cbv zeta.
  cbn [snd]. unfold allocated. cbn [self heap events grid num_TX num_RX].
  rewrite Hntx, Hnrx, Hheap.
  rewrite !decide_True by done. cbn [length app].
  rewrite (to_uint_small (NUM_TX * NUM_RX)) by (unfold NUM_TX, NUM_RX; lia).
  split; [done|]. split; [done|]. split; [done|].
  split; [eexists; split; [reflexivity|by rewrite length_fmap, length_seq]|].
  rewrite !allocations_app, !grid_stores_app, Hal, Hst.
  destruct (isInit (self m) && useRaw); cbn; split; by try constructor.
Qed.

Lemma call_allocated c m : allocated m -> allocated (call pf c m).2.
Proof.
  intros (Hntx & Hnrx & Hg & (cells & Hheap & Hlen) & Hal & Hst).
  rewrite call_snd. destruct c as [|useRaw|].
  - destruct (init_frame m)
      as (new & (Hev & Hntx' & Hnrx') & Hs & Ha & _ & Hh & Hg' & _).
    unfold allocated.
    rewrite Hntx', Hnrx', Hg', Hh, Hev, allocations_app, grid_stores_app,
      Hs, Ha, !app_nil_r.
    repeat split; eauto.
  - destruct (useRawData_frame useRaw m)
      as (new & (Hev & Hntx' & Hnrx') & Hs & _ & _ & Hsame).
    destruct Hsame as (Ha & Hh & Hg'); [by rewrite Hg|].
    unfold allocated.
    rewrite Hntx', Hnrx', Hg', Hh, Hev, allocations_app, grid_stores_app,
      Hs, Ha, !app_nil_r.
    repeat split; eauto.
  - rewrite updated_eq.
    destruct (isInit (self m) && rawData (self m)); cbn [snd];
      [|repeat split; eauto].
    destruct (getRawData_frame m (stride_ok_NUM_RX m Hnrx))
      as (new & (Hev & Hntx' & Hnrx') & Ha & Hs & Hself & Hhl & Hcells).
    destruct (Hcells 0%nat cells) as (cells' & Hc0 & Hl');
      [by rewrite Hheap|].
    unfold allocated.
    rewrite Hself, Hev, allocations_app, grid_stores_app, Ha, app_nil_r.
    repeat split; try done.
    + exists cells'. split; [|congruence].
      rewrite Hheap in Hhl. cbn in Hhl.
      destruct (heap (getRawData pf m).2) as [|c0 [|c1 hp]]; try done.
      cbn in Hc0. congruence.
    + apply Forall_app. split; [done|]. by rewrite <- Hg.
Qed.

Lemma call_unallocated c m :
  unallocated m ->
  (forall useRaw, c <> CallUseRawData useRaw) ->
  unallocated (call pf c m).2.
Proof.
  intros (Hntx & Hnrx & Hg & Hheap & Hraw & Hal & Hst) Hc.
  rewrite call_snd. destruct c as [|useRaw|].
  - destruct (init_frame m)
      as (new & (Hev & Hntx' & Hnrx') & Hs & Ha & _ & Hh & Hg' & Hraw').
    unfold unallocated.
    rewrite Hntx', Hnrx', Hg', Hh, Hraw', Hev, allocations_app,
      grid_stores_app, Hs, Ha, !app_nil_r.
    done.
  - by destruct (Hc useRaw).
  - rewrite updated_eq, Hraw, andb_false_r. done.
Qed.

Lemma run_allocated : forall cs m, allocated m -> allocated (run pf cs m).
Proof.
  induction cs as [|c cs IH]; intros m Hm; [done|].
  rewrite run_cons. by apply IH, call_allocated.
Qed.

Lemma run_unallocated : forall cs m,
  unallocated m ->
  (unallocated (run pf cs m) /\ forall useRaw, CallUseRawData useRaw ∉ cs) \/
  (allocated (run pf cs m) /\ exists useRaw, CallUseRawData useRaw ∈ cs).
Proof.
  induction cs as [|c cs IH]; intros m Hm.
  - left. split; [done|]. intros useRaw Hin. by apply elem_of_nil in Hin.
  - rewrite run_cons.
    assert (Hdec : (exists useRaw, c = CallUseRawData useRaw) \/
                   forall useRaw, c <> CallUseRawData useRaw)
      by (destruct c; eauto).
    destruct Hdec as [[useRaw ->]|Hc].
    + right. split.
      * apply run_allocated. rewrite call_snd. by apply useRawData_allocates.
      * exists useRaw. apply list_elem_of_here.
    + pose proof Hc as Hc'.
      destruct (IH (call pf c m).2 (call_unallocated c m Hm Hc'))
        as [[Hu Hno]|[Ha [useRaw Hin]]].
      * left. split; [done|]. intros useRaw Hin.
        apply elem_of_cons in Hin as [Heq|Hin]; [by eapply Hc'|by eapply Hno].
      * right. split; [done|]. exists useRaw. by apply list_elem_of_further.
Qed.

(** For an object with a null [grid] at construction (static storage):
    whatever is called, and in whatever order, the array is allocated by
    the first useRawData, never again, and stays where it is. *)
Lemma useRawData_allocates_once_from_null cs :
  (exists useRaw, CallUseRawData useRaw ∈ cs) ->
  allocated (run pf cs (power_on nullptr)).
Proof.
  intros [useRaw Hin].
  destruct (run_unallocated cs _ power_on_unallocated) as [[_ Hno]|[Ha _]];
    [by destruct (Hno useRaw)|done].
Qed.

(** C8. In every sequence of public calls, for any value the grid pointer
    had at construction: every store through the grid pointer comes after a
    test [grid == nullptr] of useRawData, and a sequence without a call of
    useRawData stores nothing.  If the pointer was null at construction,
    every store moreover goes into the one array allocated by useRawData,
    at an index inside it. *)
Theorem grid_stores_after_alloc_check raw cs :
  let m := run pf cs (power_on raw) in
  guarded (events m) /\
  ((forall useRaw, CallUseRawData useRaw ∉ cs) ->
   grid_stores (events m) = []) /\
  (raw = nullptr ->
   Forall (fun s => s.1.1 = block 0 /\ 0 <= s.1.2 < NUM_TX * NUM_RX)
          (grid_stores (events m)) /\
   (grid_stores (events m) <> [] ->
    exists cells, heap m = [cells] /\
                  length cells = Z.to_nat (NUM_TX * NUM_RX))).
Proof.
  cbv zeta. split; [|split].
  - apply run_guarded; [done| |done].
    intros pre p idx v post Heq. by destruct pre.
  - intros Hcs. by apply run_without_useRawData.
  - intros ->.
    destruct (run_unallocated cs _ power_on_unallocated)
      as [[Hu _]|[Ha _]].
    + destruct Hu as (_ & _ & _ & _ & _ & _ & Hst). rewrite Hst.
      split; [constructor|done].
    + destruct Ha as (_ & _ & _ & Hcells & _ & Hst). done.
Qed.

End Proofs.

(** ** The grid pointer is not initialised by the constructor *)

Lemma run_useRawData_stale pf n : forall bs m,
  grid (self m) = block n ->
  allocations (events (run pf (CallUseRawData <$> bs) m)) =
    allocations (events m) /\
  heap (run pf (CallUseRawData <$> bs) m) = heap m /\
  grid (self (run pf (CallUseRawData <$> bs) m)) = block n.
Proof.
  induction bs as [|useRaw bs IH]; intros m Hg; [done|].
  rewrite fmap_cons, run_cons, call_snd.
  destruct (useRawData_frame pf useRaw m)
    as (new & (Hev & _) & _ & _ & _ & Hsame).
  destruct Hsame as (Ha & Hh & Hg'); [by rewrite Hg|].
  destruct (IH (useRawData pf useRaw m).2) as (IHa & IHh & IHg);
    [congruence|].
  rewrite IHa, IHh, IHg, Hev, allocations_app, Ha, app_nil_r. done.
Qed.

(** What the code does at a concrete input: an object whose storage held
    the address of array 7, initialised, put in raw mode and polled once.
    Nothing is allocated and the 252 stores of the scan go through the
    stale pointer. *)
Example stale_grid_is_written_through :
  let m := run demo_platform [CallInit; CallUseRawData true; CallUpdated]
               (power_on (block 7)) in
  allocations (events m) = [] /\ heap m = [] /\
  length (grid_stores (events m)) = 252%nat /\
  forallb (fun s => bool_decide (s.1.1 = block 7)) (grid_stores (events m))
    = true.
Proof. vm_compute. done. Qed.

(** C4 (what the code does when the storage of the object was not zero).
    The constructor leaves [grid] as it finds it.  If that value is not
    null, no sequence of calls of useRawData ever allocates the array:
    the pointer keeps its stale value and the heap stays empty. *)
Theorem useRawData_stale_grid_never_allocates pf n bs :
  let m := run pf (CallUseRawData <$> bs) (power_on (block n)) in
  allocations (events m) = [] /\ heap m = [] /\ grid (self m) = block n.
Proof. cbv zeta. by apply run_useRawData_stale. Qed.

(** * The results on a concrete platform and object *)



(** [updated] on [demo_machine] *)
Lemma updated_true_iff_scanned_witness :
  (16 <= uint_bits demo_platform) /\
  (exists r m',
    updated demo_platform demo_machine = (r, m') /\
    (r = true <-> isInit (self demo_machine) = true /\ rawData (self demo_machine) = true) /\
    (r = false -> m' = demo_machine) /\
    (r = true ->
       getRawData demo_platform demo_machine = (tt, m') /\
       (stride_ok demo_machine ->
        exists scan,
          events m' = events demo_machine ++ scan /\
          register_writes scan =
            (0x00, 0xC0) ::
            ((fun t => (0x01, NUM_TX - 1 - t)) <$>
             active NUM_TX (TX_lines (self demo_machine))) /\
          (forall i j : nat,
             (i < countActive NUM_TX (TX_lines (self demo_machine)))%nat ->
             (j < countActive NUM_RX (RX_lines (self demo_machine)))%nat ->
             exists v,
               (grid (self demo_machine), Z.of_nat i * num_RX (self demo_machine) + Z.of_nat j, v)
                 ∈ grid_stores scan /\
               forall b cells,
                 grid (self demo_machine) = block b -> heap demo_machine !! b = Some cells ->
                 length cells = Z.to_nat (NUM_TX * NUM_RX) ->
                 exists cells',
                   heap m' !! b = Some cells' /\
                   cells' !! Z.to_nat
                     (Z.of_nat i * num_RX (self demo_machine) + Z.of_nat j) = Some v) /\
          (countActive NUM_TX (TX_lines (self demo_machine)) = Z.to_nat NUM_TX ->
           countActive NUM_RX (RX_lines (self demo_machine)) = Z.to_nat NUM_RX ->
           forall k, 0 <= k < NUM_TX * NUM_RX ->
             exists v, (grid (self demo_machine), k, v) ∈ grid_stores scan)))).
Proof.
  assert (H0 : 16 <= uint_bits demo_platform)
    by (cbn; lia).
  repeat (split; [assumption|]).
  exact (updated_true_iff_scanned
           demo_platform H0 demo_machine).
Defined.

(** the TX-select writes of the scan of [demo_machine] *)
Lemma getRawData_tx_select_inverted_witness :
  (16 <= uint_bits demo_platform) /\
  (stride_ok demo_machine) /\
  (exists m' scan,
    getRawData demo_platform demo_machine = (tt, m') /\
    events m' = events demo_machine ++ scan /\
    tx_selects scan =
      (fun t => NUM_TX - 1 - t) <$> active NUM_TX (TX_lines (self demo_machine)) /\
    NUM_TX - 1 - 0 = 20 /\ NUM_TX - 1 - 20 = 0).
Proof.
  assert (H0 : 16 <= uint_bits demo_platform)
    by (cbn; lia).
  assert (H1 : stride_ok demo_machine)
    by (unfold stride_ok; vm_compute; split; discriminate).
  repeat (split; [assumption|]).
  exact (getRawData_tx_select_inverted
           demo_platform H0 demo_machine H1).
Defined.

(** the indices used by the scan of [demo_machine] *)
Lemma getRawData_indices_in_bounds_witness :
  (16 <= uint_bits demo_platform) /\
  (stride_ok demo_machine) /\
  (exists m' scan,
    getRawData demo_platform demo_machine = (tt, m') /\
    events m' = events demo_machine ++ scan /\
    Forall (fun s => s.1.1 = grid (self demo_machine) /\
                     0 <= s.1.2 < NUM_TX * NUM_RX)
           (grid_stores scan) /\
    NUM_TX * NUM_RX = 252 /\
    Forall (fun off => 0 <= off < 2 * NUM_RX) (buffer_loads scan)).
Proof.
  assert (H0 : 16 <= uint_bits demo_platform)
    by (cbn; lia).
  assert (H1 : stride_ok demo_machine)
    by (unfold stride_ok; vm_compute; split; discriminate).
  repeat (split; [assumption|]).
  exact (getRawData_indices_in_bounds
           demo_platform H0 demo_machine H1).
Defined.

(** RX line 0 of [demo_buffer], which starts with the bytes 0x12, 0x34 *)
Lemma rx_step_decodes_sample_witness :
  (16 <= uint_bits demo_platform) /\
  (0 <= 0 < NUM_RX) /\
  (demo_buffer !! Z.to_nat (2 * 0) = Some 0x12) /\
  (demo_buffer !! Z.to_nat (2 * 0 + 1) = Some 0x34) /\
  (is_byte 0x12) /\
  (is_byte 0x34) /\
  (line_at (RX_lines (self demo_machine)) 0 = true) /\
  (exists idx,
    events (rx_step demo_platform demo_buffer 0 0 0 demo_machine).2 =
      events demo_machine ++ [BufferLoad (2 * 0); BufferLoad (2 * 0 + 1);
                   GridStore (grid (self demo_machine)) idx (Z.lor (Z.shiftl 0x12 8) 0x34)] /\
    sample_at demo_buffer 0 = Z.lor (Z.shiftl 0x12 8) 0x34 /\
    Z.lor (Z.shiftl 0x12 8) 0x34 = 0x12 * 256 + 0x34 /\
    (0x12 = 0x12 -> 0x34 = 0x34 -> Z.lor (Z.shiftl 0x12 8) 0x34 = 0x1234)).
Proof.
  assert (H0 : 16 <= uint_bits demo_platform)
    by (cbn; lia).
  assert (H1 : 0 <= 0 < NUM_RX)
    by (unfold NUM_RX; lia).
  assert (H2 : demo_buffer !! Z.to_nat (2 * 0) = Some 0x12)
    by (reflexivity).
  assert (H3 : demo_buffer !! Z.to_nat (2 * 0 + 1) = Some 0x34)
    by (reflexivity).
  assert (H4 : is_byte 0x12)
    by (unfold is_byte; lia).
  assert (H5 : is_byte 0x34)
    by (unfold is_byte; lia).
  assert (H6 : line_at (RX_lines (self demo_machine)) 0 = true)
    by (reflexivity).
  repeat (split; [assumption|]).
  exact (rx_step_decodes_sample
           demo_platform H0 demo_buffer 0 0 0 demo_machine 0x12 0x34 H1 H2 H3 H4 H5 H6).
Defined.

(** a burst of 24 bytes requested from a device that delivers three *)
Lemma getRegisters_drains_in_order_witness :
  (0 <= 24 < 256) /\
  (let st := to_byte (ack short_platform (events demo_machine) I2C_ADDRESS [to_byte 0x10]) in
  let tx := Transmission I2C_ADDRESS [to_byte 0x10] false st in
  let offered := to_byte <$> reply short_platform (events demo_machine ++ [tx]) I2C_ADDRESS 24 in
  let d := take (Z.to_nat 24) offered in
  exists buffer' m',
    getRegisters short_platform 0x10 24 (replicate 24 0xEE) demo_machine = (buffer', m') /\
    events m' =
      events demo_machine ++
      [tx; RequestFrom I2C_ADDRESS 24 d] ++
      imap (fun k v => BufferStore (Z.of_nat k) v) d /\
    (length d <= Z.to_nat 24)%nat /\
    ((length offered <= Z.to_nat 24)%nat -> d = offered) /\
    rxBuffer (Wire m') = [] /\
    length buffer' = length (replicate 24 0xEE) /\
    (forall k : nat, (k < length d)%nat -> (k < length (replicate 24 0xEE))%nat ->
       buffer' !! k = d !! k) /\
    (forall k : nat, (length d <= k)%nat -> buffer' !! k = (replicate 24 0xEE) !! k)).
Proof.
  assert (H0 : 0 <= 24 < 256)
    by (lia).
  repeat (split; [assumption|]).
  exact (getRegisters_drains_in_order
           short_platform 0x10 24 (replicate 24 0xEE) demo_machine H0).
Defined.

(** init, useRawData(true), updated on a fresh object with a null grid *)
Lemma grid_stores_after_alloc_check_witness :
  (16 <= uint_bits demo_platform) /\
  (let m := run demo_platform [CallInit; CallUseRawData true; CallUpdated] (power_on nullptr) in
  guarded (events m) /\
  ((forall useRaw, CallUseRawData useRaw ∉ [CallInit; CallUseRawData true; CallUpdated]) ->
   grid_stores (events m) = []) /\
  (nullptr = nullptr ->
   Forall (fun s => s.1.1 = block 0 /\ 0 <= s.1.2 < NUM_TX * NUM_RX)
          (grid_stores (events m)) /\
   (grid_stores (events m) <> [] ->
    exists cells, heap m = [cells] /\
                  length cells = Z.to_nat (NUM_TX * NUM_RX)))).
Proof.
  assert (H0 : 16 <= uint_bits demo_platform)
    by (cbn; lia).
  repeat (split; [assumption|]).
  exact (grid_stores_after_alloc_check
           demo_platform H0 nullptr [CallInit; CallUseRawData true; CallUpdated]).
Defined.

(** * Further properties of the driver *)

Lemma run_app pf cs1 : forall cs2 m,
  run pf (cs1 ++ cs2) m = run pf cs2 (run pf cs1 m).
Proof.
  induction cs1 as [|c cs1 IH]; intros cs2 m; [done|].
  cbn [app]. rewrite !run_cons. apply IH.
Qed.

Lemma same_shape_refl p hp : same_shape p hp hp.
Proof. split; [done|]. intros b cells Hb. eauto. Qed.

Lemma same_shape_trans p hp1 hp2 hp3 :
  same_shape p hp1 hp2 -> same_shape p hp2 hp3 -> same_shape p hp1 hp3.
Proof.
  intros [Hl1 H1] [Hl2 H2]. split; [congruence|].
  intros b cells Hb.
  destruct (H1 b cells Hb) as (c2 & Hb2 & Hlen2 & Hsame2).
  destruct (H2 b c2 Hb2) as (c3 & Hb3 & Hlen3 & Hsame3).
  exists c3. split; [done|]. split; [congruence|].
  intros Hp. rewrite Hsame3, Hsame2; done.
Qed.

Lemma poke_same_shape p idx v hp : same_shape p hp (poke p idx v hp).
Proof.
  destruct p as [|b0]; cbn; [apply same_shape_refl|].
  destruct (hp !! b0) as [cells0|] eqn:Hb0; [|apply same_shape_refl].
  split; [apply length_insert|].
  intros b cells Hb. destruct (decide (b = b0)) as [->|Hne].
  - rewrite list_lookup_insert_eq by (eapply lookup_lt_Some; eauto).
    eexists. split; [done|]. split; [|congruence].
    rewrite length_insert. congruence.
  - rewrite list_lookup_insert_ne by done. eauto.
Qed.

Section Further.
Context (pf : Platform).

(** *** What a scan leaves alone *)

Lemma rx_step_keeps buffer gridTxAddr r g m g' m' :
  rx_step pf buffer gridTxAddr r g m = (g', m') ->
  self m' = self m /\ same_shape (grid (self m)) (heap m) (heap m').
Proof.
  unfold rx_step, buffer_load, grid_store, this, gets, emit, set_heap,
    mbind, M_bind, mret, M_ret.
  destruct (line_at (RX_lines (self m)) r); intros [= <- <-];
    cbn [self heap].
  - split; [done|]. apply poke_same_shape.
  - split; [done|]. apply same_shape_refl.
Qed.

Lemma rx_loop_keeps buffer gridTxAddr : forall rxs g m g' m',
  for_each rxs (rx_step pf buffer gridTxAddr) g m = (g', m') ->
  self m' = self m /\ same_shape (grid (self m)) (heap m) (heap m').
Proof.
  induction rxs as [|r rxs IH]; intros g m g' m' Hrun.
  - injection Hrun as <- <-. split; [done|]. apply same_shape_refl.
  - cbn [for_each] in Hrun. unfold mbind, M_bind in Hrun.
    destruct (rx_step pf buffer gridTxAddr r g m) as [g1 m1] eqn:Hstep.
    apply rx_step_keeps in Hstep as [Hs Hh].
    apply IH in Hrun as [Hs' Hh']. rewrite Hs in Hh'.
    split; [congruence|]. eapply same_shape_trans; eauto.
Qed.

Lemma tx_step_keeps t locals m locals' m' :
  tx_step pf t locals m = (locals', m') ->
  self m' = self m /\ same_shape (grid (self m)) (heap m) (heap m').
Proof.
  destruct locals as [[buffer gi] g].
  unfold tx_step. unfold this, gets, mbind at 1, M_bind at 1.
  destruct (line_at (TX_lines (self m)) t).
  2:{ intros [= <- <-]. split; [done|]. apply same_shape_refl. }
  unfold mbind at 1, M_bind at 1. rewrite setRegister_eq. cbv zeta.
  unfold mbind at 1, M_bind at 1, emit at 1.
  cbn [self heap Wire events].
  unfold mbind at 1, M_bind at 1.
  change (to_byte (2 * NUM_RX)) with 24.
  rewrite getRegisters_eq by lia. cbv zeta. cbn [self heap Wire events].
  unfold mbind at 1, M_bind at 1.
  match goal with |- context [for_each ?l ?f ?a ?m1] =>
    destruct (for_each l f a m1) as [g1 m2] eqn:Hloop
  end.
  apply rx_loop_keeps in Hloop as [Hs Hh].
  cbn [self heap] in Hs, Hh.
  intros [= <- <-]. done.
Qed.

Lemma tx_loop_keeps : forall txs locals m locals' m',
  for_each txs (tx_step pf) locals m = (locals', m') ->
  self m' = self m /\ same_shape (grid (self m)) (heap m) (heap m').
Proof.
  induction txs as [|t txs IH]; intros locals m locals' m' Hrun.
  - injection Hrun as <- <-. split; [done|]. apply same_shape_refl.
  - cbn [for_each] in Hrun. unfold mbind, M_bind in Hrun.
    destruct (tx_step pf t locals m) as [l1 m1] eqn:Hstep.
    apply tx_step_keeps in Hstep as [Hs Hh].
    apply IH in Hrun as [Hs' Hh']. rewrite Hs in Hh'.
    split; [congruence|]. eapply same_shape_trans; eauto.
Qed.

Lemma getRawData_keeps m :
  self (getRawData pf m).2 = self m /\
  same_shape (grid (self m)) (heap m) (heap (getRawData pf m).2).
Proof.
  destruct (getRawData pf m) as [[] m'] eqn:Hrun. cbn [snd].
  unfold getRawData in Hrun. unfold mbind at 1, M_bind at 1 in Hrun.
  rewrite setRegister_eq in Hrun. cbv zeta in Hrun.
  unfold mbind at 1, M_bind at 1 in Hrun.
  unfold local_buffer, gets, mbind at 1, M_bind at 1, mret, M_ret in Hrun.
  cbn [self heap Wire events] in Hrun.
  unfold mbind, M_bind in Hrun.
  match type of Hrun with context [for_each ?l ?f ?a ?m1] =>
    destruct (for_each l f a m1) as [l1 m2] eqn:Hloop
  end.
  apply tx_loop_keeps in Hloop as [Hs Hh].
  cbn [self heap] in Hs, Hh. injection Hrun as <-. done.
Qed.

Lemma updated_keeps m :
  self (updated pf m).2 = self m /\
  same_shape (grid (self m)) (heap m) (heap (updated pf m).2).
Proof.
  rewrite updated_eq.
  destruct (isInit (self m) && rawData (self m)); cbn [snd].
  - apply getRawData_keeps.
  - split; [done|]. apply same_shape_refl.
Qed.

(** *** The flags *)

Lemma call_self c m :
  let s := self m in
  let s' := self (call pf c m).2 in
  num_TX s' = num_TX s /\ num_RX s' = num_RX s /\
  RX_lines s' = RX_lines s /\ TX_lines s' = TX_lines s /\
  (isInit s = true -> isInit s' = true) /\
  ((forall useRaw, c <> CallUseRawData useRaw) -> rawData s' = rawData s) /\
  (c <> CallInit -> isInit s' = isInit s) /\
  (forall useRaw, c = CallUseRawData useRaw -> rawData s' = useRaw).
Proof.
  cbv zeta. rewrite call_snd. destruct c as [|useRaw|].
  - rewrite init_eq. cbv zeta.
    destruct (decide _); cbn [snd self num_TX num_RX RX_lines TX_lines
                              isInit rawData]; repeat split; try done.
  - rewrite useRawData_eq. cbv zeta.
    cbn [snd self num_TX num_RX RX_lines TX_lines isInit rawData].
    repeat split; try done.
    + intros Hc. by destruct (Hc useRaw).
    + by intros ? [= ->].
  - destruct (updated_keeps m) as [-> _].
    repeat split; done.
Qed.

(** X2. No call ever clears [isInit]: once an [init] has succeeded, the
    object stays initialised whatever is called afterwards, a failing
    [init] included. *)
Theorem isInit_never_cleared cs m :
  isInit (self m) = true ->
  isInit (self (run pf cs m)) = true.
Proof.
  revert m. induction cs as [|c cs IH]; intros m Hm; [done|].
  rewrite run_cons. apply IH.
  by apply (call_self c m).
Qed.

(** X3. [rawData] is the argument of the last call of useRawData: calls of
    [init] and [updated] after it do not change the flag. *)
Theorem rawData_is_last_request cs useRaw cs' m :
  (forall b, CallUseRawData b ∉ cs') ->
  rawData (self (run pf (cs ++ CallUseRawData useRaw :: cs') m)) = useRaw.
Proof.
  intros Hcs'. rewrite run_app, run_cons.
  assert (Hfirst : rawData (self (call pf (CallUseRawData useRaw)
                                       (run pf cs m)).2) = useRaw)
    by (by apply (call_self (CallUseRawData useRaw))).
  revert Hfirst. generalize (call pf (CallUseRawData useRaw) (run pf cs m)).2.
  induction cs' as [|c cs' IH]; intros m1 Hm1; [done|].
  rewrite run_cons. apply IH.
  - intros b Hb. apply (Hcs' b). by apply list_elem_of_further.
  - destruct (call_self c m1) as (_ & _ & _ & _ & _ & Hraw & _).
    rewrite Hraw; [done|].
    intros b ->. apply (Hcs' b). apply list_elem_of_here.
Qed.

(** X4. As long as the object is not initialised, calls of useRawData and
    [updated] put nothing on the bus and store nothing in the grid, and
    the object stays uninitialised: only [init] starts the traffic. *)
Theorem quiet_before_init cs m :
  isInit (self m) = false ->
  CallInit ∉ cs ->
  isInit (self (run pf cs m)) = false /\
  bus_traffic (events (run pf cs m)) = bus_traffic (events m) /\
  grid_stores (events (run pf cs m)) = grid_stores (events m).
Proof.
  revert m. induction cs as [|c cs IH]; intros m Hm Hcs; [done|].
  rewrite run_cons.
  assert (Hc : c <> CallInit)
    by (intros ->; apply Hcs, list_elem_of_here).
  assert (Hstep :
    isInit (self (call pf c m).2) = false /\
    bus_traffic (events (call pf c m).2) = bus_traffic (events m) /\
    grid_stores (events (call pf c m).2) = grid_stores (events m)).
  { rewrite call_snd. destruct c as [|useRaw|]; [done| |].
    - rewrite useRawData_eq. cbv zeta. cbn [snd self events isInit].
      rewrite Hm. cbn [andb]. rewrite app_nil_r.
      rewrite bus_traffic_app, grid_stores_app.
      split; [done|].
      destruct (decide (grid (self m) = nullptr)); cbn;
        by rewrite !app_nil_r.
    - rewrite updated_eq, Hm. done. }
  destruct Hstep as (Hi & Hb & Hg).
  destruct (IH (call pf c m).2 Hi) as (Hi' & Hb' & Hg').
  { intros Hin. apply Hcs. by apply list_elem_of_further. }
  split; [done|]. split; congruence.
Qed.

(** *** The events a scan can produce *)

Lemma to_uint_le z : 0 <= z -> 0 <= to_uint pf z <= z.
Proof.
  intros Hz. unfold to_uint.
  destruct (Z.lt_trichotomy (2 ^ uint_bits pf) 0) as [Hneg|[Hzero|Hpos]].
  - pose proof (Z.pow_nonneg 2 (uint_bits pf) ltac:(lia)). lia.
  - rewrite Hzero, Z.mod_0_r. lia.
  - split; [apply Z.mod_pos_bound; lia|apply Z.mod_le; lia].
Qed.

Lemma Forall_omap_proj {A B} (f : A -> option B) (P : A -> Prop)
    (Q : B -> Prop) (l : list A) :
  (forall a b, P a -> f a = Some b -> Q b) ->
  Forall P l -> Forall Q (omap f l).
Proof.
  intros HPQ. induction 1 as [|a l Ha _ IH]; cbn; [constructor|].
  destruct (f a) as [b|] eqn:Hfa; [constructor; eauto|done].
Qed.

Section Alphabet.
Context (P : Event -> Prop).
Hypothesis P_begin : P WireBegin.
Hypothesis P_clock : P (WireSetClock 400000).
Hypothesis P_timeout : P (WireSetTimeout 200).
Hypothesis P_normal : forall st,
  P (Transmission I2C_ADDRESS [0x00; MODE_NORMAL] false st).
Hypothesis P_delay_ms : P (Delay 100).
Hypothesis P_config : forall st,
  P (Transmission I2C_ADDRESS [0xA7; 0x04] false st).
Hypothesis P_println : forall text, P (SerialPrintln text).
Hypothesis P_check : forall was_null, P (AllocCheck was_null).
Hypothesis P_new : forall b n, P (New b n).
Hypothesis P_test : forall st,
  P (Transmission I2C_ADDRESS [0x00; MODE_TEST] false st).
Hypothesis P_mode : forall st,
  P (Transmission I2C_ADDRESS [0x00; 0xC0] false st).
Hypothesis P_select : forall v st,
  is_byte v -> P (Transmission I2C_ADDRESS [0x01; v] false st).
Hypothesis P_delay : P (DelayMicroseconds 50).
Hypothesis P_setup : forall st, P (Transmission I2C_ADDRESS [0x10] false st).
Hypothesis P_burst : forall d,
  (length d <= Z.to_nat (2 * NUM_RX))%nat -> Forall is_byte d ->
  P (RequestFrom I2C_ADDRESS (2 * NUM_RX) d).
Hypothesis P_buffer_store : forall off v,
  0 <= off < 2 * NUM_RX -> is_byte v -> P (BufferStore off v).
Hypothesis P_buffer_load : forall off, P (BufferLoad off).
Hypothesis P_grid_store : forall p idx v,
  0 <= v < 65536 -> P (GridStore p idx v).

Lemma rx_step_alphabet buffer gridTxAddr r g m g' m' :
  Forall is_byte buffer ->
  rx_step pf buffer gridTxAddr r g m = (g', m') ->
  exists new, events m' = events m ++ new /\ Forall P new.
Proof.
  intros Hbuf.
  unfold rx_step, buffer_load, grid_store, this, gets, emit, set_heap,
    mbind, M_bind, mret, M_ret.
  destruct (line_at (RX_lines (self m)) r); intros [= <- <-];
    cbn [events]; [|exists []; by rewrite app_nil_r].
  rewrite <- !app_assoc. eexists. split; [reflexivity|].
  assert (Hel : forall k, is_byte (default 0 (buffer !! k))).
  { intros k. destruct (buffer !! k) as [x|] eqn:Hk; cbn.
    - eapply Forall_lookup_1; eauto.
    - unfold is_byte; lia. }
  repeat constructor; auto. apply P_grid_store.
  match goal with |- context [sample ?hi ?lo] =>
    pose proof (sample_range hi lo (Hel _) (Hel _)) as Hr;
    pose proof (to_uint_le (sample hi lo) ltac:(lia))
  end. lia.
Qed.

Lemma rx_loop_alphabet buffer gridTxAddr : forall rxs g m g' m',
  Forall is_byte buffer ->
  for_each rxs (rx_step pf buffer gridTxAddr) g m = (g', m') ->
  exists new, events m' = events m ++ new /\ Forall P new.
Proof.
  induction rxs as [|r rxs IH]; intros g m g' m' Hbuf Hrun.
  - injection Hrun as <- <-. exists []. by rewrite app_nil_r.
  - cbn [for_each] in Hrun. unfold mbind, M_bind in Hrun.
    destruct (rx_step pf buffer gridTxAddr r g m) as [g1 m1] eqn:Hstep.
    apply rx_step_alphabet in Hstep as (new1 & Hev1 & HP1); try done.
    apply IH in Hrun as (new2 & Hev2 & HP2); try done.
    exists (new1 ++ new2). rewrite Hev2, Hev1, app_assoc.
    split; [done|]. by apply Forall_app.
Qed.

Lemma tx_step_alphabet t buffer gi g m locals' m' :
  Forall is_byte buffer ->
  tx_step pf t (buffer, gi, g) m = (locals', m') ->
  Forall is_byte locals'.1.1 /\
  exists new, events m' = events m ++ new /\ Forall P new.
Proof.
  intros Hbuf.
  unfold tx_step. unfold this, gets, mbind at 1, M_bind at 1.
  destruct (line_at (TX_lines (self m)) t).
  2:{ intros [= <- <-]. split; [done|]. exists []. by rewrite app_nil_r. }
  unfold mbind at 1, M_bind at 1. rewrite setRegister_eq. cbv zeta.
  unfold mbind at 1, M_bind at 1, emit at 1.
  cbn [self heap Wire events].
  unfold mbind at 1, M_bind at 1.
  change (to_byte (2 * NUM_RX)) with 24.
  rewrite getRegisters_eq by lia. cbv zeta. cbn [self heap Wire events].
  unfold mbind at 1, M_bind at 1.
  set (d := take (Z.to_nat 24) _).
  assert (Hd : Forall is_byte d) by (apply Forall_take, Forall_to_byte).
  assert (Hdl : (length d <= 24)%nat)
    by (subst d; rewrite length_take; lia).
  assert (Hbuf' : Forall is_byte (list_inserts 0 d buffer))
    by (by apply Forall_list_inserts).
  match goal with |- context [for_each ?l ?f ?a ?m1] =>
    destruct (for_each l f a m1) as [g1 m2] eqn:Hloop
  end.
  apply rx_loop_alphabet in Hloop as (new & Hev & HP); try done.
  cbn [events] in Hev.
  intros [= <- <-]. split; [done|].
  eexists. rewrite Hev, <- !app_assoc. split; [reflexivity|].
  change (to_byte 1) with 1. change (to_byte 16) with 16.
  rewrite to_byte_idemp.
  apply Forall_app. split; [repeat constructor; auto using to_byte_range|].
  apply Forall_app. split; [repeat constructor; auto|].
  apply Forall_app. split.
  { constructor; [apply P_setup|]. constructor; [|constructor].
    by apply (P_burst d). }
  apply Forall_app. split; [|done].
  apply list.Forall_forall. intros e He.
  apply list_elem_of_lookup in He as [k Hk].
  rewrite list_lookup_imap in Hk.
  destruct (d !! k) as [v|] eqn:Hdk; [|done].
  injection Hk as <-. apply P_buffer_store.
  - apply lookup_lt_Some in Hdk. unfold NUM_RX. lia.
  - exact (Forall_lookup_1 _ _ _ _ Hd Hdk).
Qed.

Lemma tx_loop_alphabet : forall txs buffer gi g m locals' m',
  Forall is_byte buffer ->
  for_each txs (tx_step pf) (buffer, gi, g) m = (locals', m') ->
  exists new, events m' = events m ++ new /\ Forall P new.
Proof.
  induction txs as [|t txs IH]; intros buffer gi g m locals' m' Hbuf Hrun.
  - injection Hrun as <- <-. exists []. by rewrite app_nil_r.
  - cbn [for_each] in Hrun. unfold mbind, M_bind in Hrun.
    destruct (tx_step pf t (buffer, gi, g) m) as [[[b1 gi1] g1] m1] eqn:Hstep.
    apply tx_step_alphabet in Hstep as (Hb1 & new1 & Hev1 & HP1); try done.
    apply IH in Hrun as (new2 & Hev2 & HP2); try done.
    exists (new1 ++ new2). rewrite Hev2, Hev1, app_assoc.
    split; [done|]. by apply Forall_app.
Qed.

Lemma getRawData_alphabet m :
  exists new,
    events (getRawData pf m).2 = events m ++ new /\ Forall P new.
Proof.
  destruct (getRawData pf m) as [[] m'] eqn:Hrun. cbn [snd].
  unfold getRawData in Hrun. unfold mbind at 1, M_bind at 1 in Hrun.
  rewrite setRegister_eq in Hrun. cbv zeta in Hrun.
  unfold mbind at 1, M_bind at 1 in Hrun.
  unfold local_buffer, gets, mbind at 1, M_bind at 1, mret, M_ret in Hrun.
  cbn [self heap Wire events] in Hrun.
  unfold mbind, M_bind in Hrun.
  match type of Hrun with context [for_each ?l ?f ?a ?m1] =>
    destruct (for_each l f a m1) as [l1 m2] eqn:Hloop
  end.
  apply tx_loop_alphabet in Hloop as (new & Hev & HP); try done.
  - cbn [events] in Hev. injection Hrun as <-.
    eexists. rewrite Hev, <- app_assoc. split; [reflexivity|].
    constructor; [|done].
    change (to_byte (to_byte 0)) with 0.
    change (to_byte (to_byte 192)) with 192. apply P_mode.
  - apply Forall_fmap, Forall_true. intros k. apply to_byte_range.
Qed.

Lemma updated_alphabet m :
  exists new, events (updated pf m).2 = events m ++ new /\ Forall P new.
Proof.
  rewrite updated_eq.
  destruct (isInit (self m) && rawData (self m)); cbn [snd].
  - apply getRawData_alphabet.
  - exists []. by rewrite app_nil_r.
Qed.

Lemma init_alphabet m :
  exists new, events (init pf m).2 = events m ++ new /\ Forall P new.
Proof.
  rewrite init_eq. cbv zeta.
  destruct (decide _); cbn [snd events]; rewrite <- app_assoc;
    (eexists; split; [reflexivity|]); repeat constructor; auto.
Qed.

Lemma useRawData_alphabet useRaw m :
  exists new,
    events (useRawData pf useRaw m).2 = events m ++ new /\ Forall P new.
Proof.
  rewrite useRawData_eq. cbv zeta. cbn [snd events].
  rewrite <- app_assoc. eexists. split; [reflexivity|].
  destruct (decide _), (isInit (self m) && useRaw);
    repeat constructor; auto.
Qed.

(** a call without [init] *)
Lemma call_alphabet_after_init c m :
  c <> CallInit ->
  exists new, events (call pf c m).2 = events m ++ new /\ Forall P new.
Proof.
  intros Hc. rewrite call_snd. destruct c; [done| |].
  - apply useRawData_alphabet.
  - apply updated_alphabet.
Qed.

Lemma run_alphabet_after_init : forall cs m,
  CallInit ∉ cs ->
  exists new, events (run pf cs m) = events m ++ new /\ Forall P new.
Proof.
  induction cs as [|c cs IH]; intros m Hcs.
  - exists []. by rewrite app_nil_r.
  - rewrite run_cons. apply not_elem_of_cons in Hcs as [Hc Hcs].
    destruct (call_alphabet_after_init c m) as (new1 & Hev1 & HP1);
      [done|].
    destruct (IH (call pf c m).2 Hcs) as (new2 & Hev2 & HP2).
    exists (new1 ++ new2). rewrite Hev2, Hev1, app_assoc.
    split; [done|]. by apply Forall_app.
Qed.

Lemma call_alphabet c m :
  exists new, events (call pf c m).2 = events m ++ new /\ Forall P new.
Proof.
  rewrite call_snd. destruct c.
  - apply init_alphabet.
  - apply useRawData_alphabet.
  - apply updated_alphabet.
Qed.

Lemma run_alphabet : forall cs m,
  exists new, events (run pf cs m) = events m ++ new /\ Forall P new.
Proof.
  induction cs as [|c cs IH]; intros m.
  - exists []. by rewrite app_nil_r.
  - rewrite run_cons.
    destruct (call_alphabet c m) as (new1 & Hev1 & HP1).
    destruct (IH (call pf c m).2) as (new2 & Hev2 & HP2).
    exists (new1 ++ new2). rewrite Hev2, Hev1, app_assoc.
    split; [done|]. by apply Forall_app.
Qed.
End Alphabet.

Local Ltac alphabet_side :=
  intros;
  match goal with
  | H : _ = Some _ |- _ =>
      cbn in H; first [discriminate H | injection H as <-]; cbn; auto
  end.

(** X5. Whatever is called, in whatever order and from whatever state, all
    bus traffic of the driver goes to the controller at address 0x38: every
    transmission is ended without a stop (repeated start), and every read
    asks for [2 * NUM_RX] bytes. *)
Theorem bus_traffic_addresses_controller cs m :
  exists new,
    events (run pf cs m) = events m ++ new /\
    Forall (fun e => Is_true (to_controller e)) new.
Proof. apply run_alphabet; intros; exact I. Qed.

(** X6. Whatever is called: getRegisters stores only bytes into the burst
    buffer of getRawData, and only at offsets below [2 * NUM_RX], the size of
    that buffer, however many bytes the device offers. *)
Theorem burst_buffer_stores_in_range cs m :
  exists new,
    events (run pf cs m) = events m ++ new /\
    Forall (fun s => 0 <= s.1 < 2 * NUM_RX /\ is_byte s.2)
           (buffer_stores new).
Proof.
  destruct (run_alphabet
    (fun e => forall s,
       match e with BufferStore off v => Some (off, v) | _ => None end
         = Some s -> 0 <= s.1 < 2 * NUM_RX /\ is_byte s.2))
    with (cs := cs) (m := m) as (new & Hev & HP);
    try by alphabet_side.
  exists new. split; [done|].
  unfold buffer_stores. eapply Forall_omap_proj; [|exact HP]. auto.
Qed.

(** X7. Whatever is called, and whatever the width of [unsigned int]: every
    value stored through the grid pointer is a 16-bit sample, between 0 and
    65535. *)
Theorem stored_samples_fit_16_bits cs m :
  exists new,
    events (run pf cs m) = events m ++ new /\
    Forall (fun s => 0 <= s.2 < 65536) (grid_stores new).
Proof.
  destruct (run_alphabet
    (fun e => forall s,
       match e with GridStore p idx v => Some (p, idx, v) | _ => None end
         = Some s -> 0 <= s.2 < 65536))
    with (cs := cs) (m := m) as (new & Hev & HP);
    try by alphabet_side.
  exists new. split; [done|].
  unfold grid_stores. eapply Forall_omap_proj; [|exact HP]. auto.
Qed.

(** X8. In a sequence of calls without init, the only register writes are
    the mode register 0x00 set to MODE_TEST (useRawData) or to 0xC0 (start
    of a scan) and the TX-select register 0x01 set to a byte: the controller
    is never put back to MODE_NORMAL and register 0xA7 is never written
    again. *)
Theorem register_writes_without_init cs m :
  CallInit ∉ cs ->
  exists new,
    events (run pf cs m) = events m ++ new /\
    Forall (fun rv => rv = (0x00, MODE_TEST) \/ rv = (0x00, 0xC0) \/
                      (rv.1 = 0x01 /\ is_byte rv.2))
           (register_writes new).
Proof.
  intros Hcs.
  destruct (run_alphabet_after_init
    (fun e => forall rv,
       match e with
       | Transmission _ [reg; val] _ _ => Some (reg, val)
       | _ => None
       end = Some rv ->
       rv = (0x00, MODE_TEST) \/ rv = (0x00, 0xC0) \/
       (rv.1 = 0x01 /\ is_byte rv.2)))
    with (cs := cs) (m := m) as (new & Hev & HP);
    try done; try by alphabet_side.
  exists new. split; [done|].
  unfold register_writes. eapply Forall_omap_proj; [|exact HP]. auto.
Qed.

End Further.

(** ** The sample decoding can be undone *)

(** X9. The two bytes of a sample can be read back from it: the high byte
    is the sample shifted right by 8, the low byte its lowest 8 bits.  So
    different byte pairs never decode to the same sample. *)
Theorem sample_bytes_round_trip hi lo :
  is_byte hi -> is_byte lo ->
  Z.shiftr (sample hi lo) 8 = hi /\ Z.land (sample hi lo) 0xFF = lo.
Proof.
  unfold is_byte. intros Hhi Hlo.
  rewrite sample_add by (unfold is_byte; lia).
  rewrite Z.shiftr_div_pow2 by lia.
  change 255 with (Z.ones 8). rewrite Z.land_ones by lia.
  change (2 ^ 8) with 256. split.
  - rewrite Z.div_add_l by lia. rewrite Z.div_small by lia. lia.
  - rewrite Z.add_comm, Z.mod_add by lia. apply Z.mod_small. lia.
Qed.

(** ** Scans in closed form: edge cases and repetition *)

Lemma register_writes_app tr1 tr2 :
  register_writes (tr1 ++ tr2) = register_writes tr1 ++ register_writes tr2.
Proof. apply omap_app. Qed.

Lemma bursts_app tr1 tr2 : bursts (tr1 ++ tr2) = bursts tr1 ++ bursts tr2.
Proof. apply omap_app. Qed.

Lemma row_events_bursts p buffer : forall cols pos,
  bursts (row_events p buffer pos cols) = [].
Proof. induction cols as [|r cols IH]; intros pos; cbn; auto. Qed.

Lemma scan_events_bursts p nrx cols : forall rows xs gi buffer,
  length xs = length rows ->
  bursts (scan_events p nrx cols gi buffer rows xs) = delivered <$> xs.
Proof.
  induction rows as [|t rows IH]; intros [|x xs] gi buffer Hxs; try done.
  cbn [scan_events]. cbv zeta.
  rewrite !bursts_app, row_events_bursts.
  unfold bursts at 2. rewrite (omap_imap_None _ (delivered x)) by done.
  cbn. f_equal. apply IH. cbn in Hxs. lia.
Qed.

Lemma scan_heap_no_cols p nrx : forall rows xs gi buffer hp,
  scan_heap p nrx [] gi buffer rows xs hp = hp.
Proof.
  induction rows as [|t rows IH]; intros [|x xs] gi buffer hp; cbn; auto.
Qed.

Lemma scan_events_no_cols_stores p nrx : forall rows xs gi buffer,
  grid_stores (scan_events p nrx [] gi buffer rows xs) = [].
Proof.
  induction rows as [|t rows IH]; intros [|x xs] gi buffer; try done.
  cbn [scan_events row_events]. cbv zeta.
  rewrite !grid_stores_app, IH.
  unfold grid_stores. by rewrite (omap_imap_None _ (delivered x)).
Qed.

Lemma burst_buffer_empty_burst buffer xs i x :
  xs !! S i = Some x -> delivered x = [] ->
  burst_buffer buffer xs (S i) = burst_buffer buffer xs i.
Proof.
  intros Hx Hd. unfold burst_buffer.
  rewrite (take_S_r _ _ _ Hx), foldl_snoc.
  unfold after_burst at 1. by rewrite Hd.
Qed.

Lemma row_events_store_cells p buffer : forall cols pos,
  (fun s => s.1) <$> grid_stores (row_events p buffer pos cols) =
  (fun k => (p, pos + Z.of_nat k)) <$> seq 0 (length cols).
Proof.
  induction cols as [|r cols IH]; intros pos; [done|].
  cbn [row_events grid_stores omap list_omap length seq fmap list_fmap].
  f_equal; [by rewrite Z.add_0_r|].
  fold (grid_stores (row_events p buffer (pos + 1) cols)).
  change (list_fmap ?A ?B ?f ?l) with (f <$> l).
  rewrite IH, <- (fmap_S_seq 0), <- list_fmap_compose.
  apply list_fmap_ext. intros _ k _. unfold compose. f_equal. lia.
Qed.

(** where the row stride is the number of included RX lines, the rows
    follow each other without gaps *)
Lemma scan_events_store_cells_dense p cols : forall rows xs gi buffer,
  length xs = length rows ->
  (fun s => s.1) <$>
    grid_stores (scan_events p (Z.of_nat (length cols)) cols gi buffer
                             rows xs) =
  (fun k => (p, gi * Z.of_nat (length cols) + Z.of_nat k)) <$>
    seq 0 (length rows * length cols).
Proof.
  induction rows as [|t rows IH]; intros [|x xs] gi buffer Hxs; try done.
  cbn [scan_events]. cbv zeta.
  rewrite !grid_stores_app.
  unfold grid_stores at 1 2.
  rewrite (omap_imap_None _ (delivered x)) by done.
  cbn [omap list_omap app].
  fold (grid_stores (row_events p (after_burst buffer x)
                       (gi * Z.of_nat (length cols)) cols)).
  rewrite fmap_app, row_events_store_cells, IH by (cbn in Hxs; lia).
  cbn [length Nat.mul]. rewrite seq_app, fmap_app. f_equal.
  rewrite (Nat.add_comm 0), <- (fmap_add_seq (length cols) 0),
    <- list_fmap_compose.
  apply list_fmap_ext. intros _ k _. unfold compose. f_equal. lia.
Qed.

Lemma burst_buffer_silent buffer xs i :
  Forall (fun d => d = []) (delivered <$> xs) ->
  burst_buffer buffer xs i = buffer.
Proof.
  intros Hxs. unfold burst_buffer.
  assert (Hl : Forall (fun x => delivered x = []) (take (S i) xs)).
  { apply Forall_take. by apply Forall_fmap in Hxs. }
  revert Hl. generalize (take (S i) xs) as l.
  induction l as [|x l IH] using rev_ind; intros Hl; [done|].
  apply Forall_app in Hl as [Hl Hx]. inversion Hx as [|? ? Hd _]; subst.
  rewrite foldl_snoc, IH by done. unfold after_burst. by rewrite Hd.
Qed.

Section FurtherScan.
Context (pf : Platform).
Hypothesis uint_bits_min : 16 <= uint_bits pf.

(** the scan in closed form, with the burst buffer it starts from: the
    uninitialised local array *)
Lemma getRawData_from_stack_junk m b cells :
  grid (self m) = block b ->
  heap m !! b = Some cells ->
  stride_ok m ->
  let rows := active NUM_TX (TX_lines (self m)) in
  let cols := active NUM_RX (RX_lines (self m)) in
  let nrx := num_RX (self m) in
  let st0 := to_byte (ack pf (events m) I2C_ADDRESS [0x00; 0xC0]) in
  let h := events m ++ [Transmission I2C_ADDRESS [0x00; 0xC0] false st0] in
  let buffer0 := (fun k => to_byte (stack_junk pf h k)) <$>
                 seq 0 (Z.to_nat (2 * NUM_RX)) in
  exists xs m',
    getRawData pf m = (tt, m') /\
    length xs = length rows /\
    heap m' = <[b := scan_cells nrx cols 0 buffer0 rows xs cells]> (heap m) /\
    events m' =
      events m ++
      Transmission I2C_ADDRESS [0x00; 0xC0] false st0 ::
      scan_events (block b) nrx cols 0 buffer0 rows xs.
Proof.
  intros Hgrid Hb Hstride rows cols nrx st0 h buffer0. unfold getRawData.
  unfold mbind at 1, M_bind at 1. rewrite setRegister_eq. cbv zeta.
  change (to_byte (to_byte 0)) with 0.
  change (to_byte (to_byte 192)) with 192.
  fold st0.
  unfold mbind at 1, M_bind at 1.
  unfold local_buffer at 1, gets, mbind at 1, M_bind at 1, mret, M_ret.
  cbn [self heap Wire events]. fold h. fold buffer0.
  unfold mbind at 1, M_bind at 1.
  match goal with |- context [for_each _ _ _ ?m1] =>
    destruct (tx_loop_spec pf uint_bits_min (range NUM_TX) buffer0 0 0 m1)
      as (xs & res & m' & Hrun & Hxs & Hok & Hself & Hheap & Hev)
  end.
  { subst buffer0. apply Forall_fmap, Forall_true. intros k. cbn.
    apply to_byte_range. }
  { apply range_bounds. }
  { done. }
  { rewrite length_range. unfold NUM_TX. lia. }
  { cbn [self]. by apply stride_ok_bounds. }
  cbn [self heap Wire events] in Hrun, Hxs, Hself, Hheap, Hev.
  exists xs, m'. rewrite Hrun.
  split; [done|]. split; [exact Hxs|].
  split.
  - rewrite Hheap, Hgrid. erewrite scan_heap_block; try done. apply Hstride.
  - rewrite Hev, Hgrid. subst h. rewrite <- app_assoc. reflexivity.
Qed.

(** X1. For an object whose [grid] points to an array of
    [NUM_TX * NUM_RX] cells and whose row stride [num_RX] is in range
    ([stride_ok]): every store of [updated] goes into that array, at an
    index inside it, and nothing is allocated; so no field of the object
    changes, the heap keeps its arrays, the grid array keeps its size, and
    every other array keeps its contents. *)
Theorem updated_keeps_object_and_heap_shape m b cells :
  grid (self m) = block b ->
  heap m !! b = Some cells ->
  length cells = Z.to_nat (NUM_TX * NUM_RX) ->
  stride_ok m ->
  exists new cells',
    events (updated pf m).2 = events m ++ new /\
    Forall (fun s => s.1.1 = block b /\ 0 <= s.1.2 < Z.of_nat (length cells))
           (grid_stores new) /\
    allocations new = [] /\
    self (updated pf m).2 = self m /\
    length (heap (updated pf m).2) = length (heap m) /\
    heap (updated pf m).2 !! b = Some cells' /\
    length cells' = length cells /\
    forall b', b' <> b -> heap (updated pf m).2 !! b' = heap m !! b'.
Proof.
  intros Hgrid Hb Hlen Hstride.
  destruct (updated_keeps pf m) as (Hself & Hl & Hshape).
  destruct (Hshape b cells Hb) as (cells' & Hb' & Hlen' & _).
  assert (Hnew : exists new,
    events (updated pf m).2 = events m ++ new /\
    Forall (fun s => s.1.1 = block b /\ 0 <= s.1.2 < Z.of_nat (length cells))
           (grid_stores new) /\
    allocations new = []).
  { rewrite updated_eq.
    destruct (isInit (self m) && rawData (self m)); cbn [snd].
    - destruct (getRawData_frame pf uint_bits_min m Hstride)
        as (new & (Hev & _) & Hal & Hst & _).
      exists new. split; [done|]. split; [|done].
      eapply Forall_impl; [exact Hst|].
      intros s [Hp Hs]. split; [congruence|]. rewrite Hlen.
      unfold NUM_TX, NUM_RX in *. lia.
    - exists []. rewrite app_nil_r. split; [done|]. split; [constructor|done]. }
  destruct Hnew as (new & Hev & Hst & Hal).
  exists new, cells'. repeat (split; [done|]).
  intros b' Hne. destruct (heap m !! b') as [c|] eqn:Hc.
  - destruct (Hshape b' c Hc) as (c' & Hc' & _ & Hsame).
    rewrite Hc', Hsame; [done|]. rewrite Hgrid. congruence.
  - apply lookup_ge_None. rewrite Hl. by apply lookup_ge_None.
Qed.

(** X10. An object whose [grid] was null at construction: in every sequence
    of calls that contains a call of useRawData, however many and with
    whatever arguments, exactly one array is allocated, of
    [NUM_TX * NUM_RX] cells; it is the only array on the heap and [grid]
    points to it. *)
Theorem static_object_allocates_once cs useRaw :
  CallUseRawData useRaw ∈ cs ->
  let m := run pf cs (power_on nullptr) in
  grid (self m) = block 0 /\
  allocations (events m) = [(0%nat, NUM_TX * NUM_RX)] /\
  exists cells,
    heap m = [cells] /\ length cells = Z.to_nat (NUM_TX * NUM_RX).
Proof.
  intros Hin. cbv zeta.
  destruct (useRawData_allocates_once_from_null pf uint_bits_min cs)
    as (_ & _ & Hg & Hheap & Hal & _); [by exists useRaw|].
  done.
Qed.

(** X11. Polling an initialised object in raw mode [n] times runs [n]
    scans with the same register writes each: the mode register set to
    0xC0, then the TX-select register set to [NUM_TX - 1 - t] for each
    included TX line [t], in ascending order of [t].  The object is left as
    it was. *)
Theorem polling_repeats_scan_protocol n : forall m,
  stride_ok m ->
  isInit (self m) = true ->
  rawData (self m) = true ->
  exists new,
    events (run pf (replicate n CallUpdated) m) = events m ++ new /\
    register_writes new =
      concat (replicate n
        ((0x00, 0xC0) ::
         ((fun t => (0x01, NUM_TX - 1 - t)) <$>
          active NUM_TX (TX_lines (self m))))) /\
    self (run pf (replicate n CallUpdated) m) = self m.
Proof.
  induction n as [|n IH]; intros m Hstride Hinit Hraw.
  - exists []. by rewrite app_nil_r.
  - cbn [replicate]. rewrite run_cons, call_snd, updated_eq, Hinit, Hraw.
    cbn [andb snd].
    destruct (getRawData_rewrites pf uint_bits_min m Hstride)
      as (m' & scan & Hrun & Hev & Hrw & _).
    destruct (getRawData_keeps pf m) as [Hself _].
    rewrite Hrun in Hself |- *. cbn [snd] in Hself |- *.
    destruct (IH m') as (new & Hev' & Hrw' & Hself').
    { unfold stride_ok. rewrite Hself. apply Hstride. }
    { by rewrite Hself. }
    { by rewrite Hself. }
    exists (scan ++ new). rewrite Hev', Hev, app_assoc.
    split; [done|]. split; [|congruence].
    rewrite register_writes_app, Hrw, Hrw', Hself. reflexivity.
Qed.

(** X12. A scan of an object with no TX line included only sets the mode
    register to 0xC0: no line is selected, no burst is read, and the
    object and the heap are left as they were. *)
Theorem scan_without_tx_lines m :
  stride_ok m ->
  countActive NUM_TX (TX_lines (self m)) = 0%nat ->
  exists st0 m',
    getRawData pf m = (tt, m') /\
    events m' =
      events m ++ [Transmission I2C_ADDRESS [0x00; 0xC0] false st0] /\
    heap m' = heap m /\ self m' = self m.
Proof.
  intros Hstride Hrows.
  destruct (getRawData_spec pf uint_bits_min m (stride_ok_bounds m Hstride))
    as (st0 & buffer0 & xs & m' & Hrun & _ & _ & Hxs & _ & Hself &
        Hheap & Hev).
  unfold countActive in Hrows. apply nil_length_inv in Hrows.
  rewrite Hrows in Hxs, Hheap, Hev. apply nil_length_inv in Hxs. subst xs.
  exists st0, m'. done.
Qed.

(** X13. A scan of an object with no RX line included still selects every
    included TX line and reads a burst for each, but stores no sample: the
    heap is left as it was. *)
Theorem scan_without_rx_lines m :
  stride_ok m ->
  countActive NUM_RX (RX_lines (self m)) = 0%nat ->
  exists m' scan,
    getRawData pf m = (tt, m') /\
    events m' = events m ++ scan /\
    tx_selects scan =
      (fun t => NUM_TX - 1 - t) <$> active NUM_TX (TX_lines (self m)) /\
    length (bursts scan) = countActive NUM_TX (TX_lines (self m)) /\
    grid_stores scan = [] /\
    heap m' = heap m.
Proof.
  intros Hstride Hcols.
  destruct (getRawData_spec pf uint_bits_min m (stride_ok_bounds m Hstride))
    as (st0 & buffer0 & xs & m' & Hrun & _ & _ & Hxs & _ & Hself &
        Hheap & Hev).
  unfold countActive in Hcols. apply nil_length_inv in Hcols.
  rewrite Hcols in Hheap, Hev.
  exists m', (Transmission I2C_ADDRESS [0; 192] false st0 ::
              scan_events (grid (self m)) (num_RX (self m)) [] 0 buffer0
                (active NUM_TX (TX_lines (self m))) xs).
  split; [done|]. split; [done|].
  split.
  { change (tx_selects (Transmission I2C_ADDRESS [0; 192] false st0 :: ?tr))
      with (tx_selects tr).
    by apply scan_events_tx_selects. }
  split.
  { change (bursts (Transmission I2C_ADDRESS [0; 192] false st0 :: ?tr))
      with (bursts tr).
    by rewrite scan_events_bursts, length_fmap. }
  split.
  { change (grid_stores (Transmission I2C_ADDRESS [0; 192] false st0 :: ?tr))
      with (grid_stores tr).
    apply scan_events_no_cols_stores. }
  by rewrite Hheap, scan_heap_no_cols.
Qed.

(** X14. A short read is not noticed.  If the burst of a row other than the
    first delivers no byte, the scan stores for that row the samples of the
    row before it: the burst buffer still holds the bytes of the previous
    burst. *)
Theorem empty_burst_repeats_previous_row m b cells (i j : nat) :
  grid (self m) = block b ->
  heap m !! b = Some cells ->
  length cells = Z.to_nat (NUM_TX * NUM_RX) ->
  stride_ok m ->
  (S i < countActive NUM_TX (TX_lines (self m)))%nat ->
  (j < countActive NUM_RX (RX_lines (self m)))%nat ->
  exists m' scan cells',
    getRawData pf m = (tt, m') /\
    events m' = events m ++ scan /\
    heap m' !! b = Some cells' /\
    (bursts scan !! S i = Some [] ->
     cells' !! (S i * Z.to_nat (num_RX (self m)) + j)%nat =
     cells' !! (i * Z.to_nat (num_RX (self m)) + j)%nat).
Proof.
  intros Hgrid Hb Hlen Hstride Hi Hj.
  destruct (getRawData_block pf uint_bits_min m b cells Hgrid Hb Hstride)
    as (st0 & buffer0 & xs & m' & Hrun & _ & _ & Hxs & _ & Hself &
        Hheap & Hev).
  set (rows := active NUM_TX (TX_lines (self m))) in *.
  set (cols := active NUM_RX (RX_lines (self m))) in *.
  pose proof (active_length NUM_TX (TX_lines (self m))) as Hrows.
  fold rows in Hrows.
  assert (Hnrx : Z.of_nat (length cols) <= num_RX (self m) <= NUM_RX)
    by apply Hstride.
  unfold countActive in Hi, Hj. fold rows in Hi. fold cols in Hj.
  assert (Hblt : (b < length (heap m))%nat) by (eapply lookup_lt_Some; eauto).
  eexists m', _, _.
  split; [exact Hrun|]. split; [exact Hev|].
  split; [rewrite Hheap; by apply list_lookup_insert_eq|].
  change (bursts (Transmission I2C_ADDRESS [0; 192] false st0 :: ?tr))
    with (bursts tr).
  rewrite scan_events_bursts by done. intros Hburst.
  apply list_lookup_fmap_Some in Hburst as (x & Hd & Hx).
  destruct (lookup_lt_is_Some_2 rows (S i)) as [t1 Ht1]; [done|].
  destruct (lookup_lt_is_Some_2 rows i) as [t0 Ht0]; [apply Nat.lt_succ_l, Hi|].
  destruct (lookup_lt_is_Some_2 cols j) as [r Hr]; [done|].
  assert (Hcell : forall (k : nat) t,
    rows !! k = Some t ->
    scan_cells (num_RX (self m)) cols 0 buffer0 rows xs cells
      !! (k * Z.to_nat (num_RX (self m)) + j)%nat =
    Some (sample_at (burst_buffer buffer0 xs k) r)).
  { intros k t Hk.
    assert (k < length rows)%nat by (eapply lookup_lt_Some; eauto).
    replace (k * Z.to_nat (num_RX (self m)) + j)%nat
      with (Z.to_nat ((0 + Z.of_nat k) * num_RX (self m) + Z.of_nat j))
      by nia.
    eapply scan_cells_lookup; try done; [lia|].
    unfold NUM_RX, NUM_TX in *. nia. }
  rewrite (Hcell _ _ Ht1), (Hcell _ _ Ht0).
  by rewrite (burst_buffer_empty_burst _ _ _ _ Hx ltac:(done)).
Qed.

(** X15. Where [num_RX] is the number of included RX lines, as in every
    state the driver reaches, a scan stores to the cells
    [0, 1, ..., countActive tx * countActive rx - 1] of the grid, in this
    order, each of them once. *)
Theorem dense_scan_stores_in_ascending_order m :
  num_RX (self m) = Z.of_nat (countActive NUM_RX (RX_lines (self m))) ->
  exists m' scan,
    getRawData pf m = (tt, m') /\
    events m' = events m ++ scan /\
    (fun s => s.1) <$> grid_stores scan =
    (fun k => (grid (self m), Z.of_nat k)) <$>
      seq 0 (countActive NUM_TX (TX_lines (self m)) *
             countActive NUM_RX (RX_lines (self m))).
Proof.
  intros Hdense.
  pose proof (active_length NUM_RX (RX_lines (self m))) as Hcols.
  assert (Hnrx : 0 <= num_RX (self m) <= NUM_RX)
    by (rewrite Hdense; unfold countActive, NUM_RX in *; lia).
  destruct (getRawData_spec pf uint_bits_min m Hnrx)
    as (st0 & buffer0 & xs & m' & Hrun & _ & _ & Hxs & _ & _ & _ & Hev).
  eexists m', _. split; [exact Hrun|]. split; [exact Hev|].
  change (grid_stores (Transmission I2C_ADDRESS [0; 192] false st0 :: ?tr))
    with (grid_stores tr).
  rewrite Hdense. unfold countActive.
  rewrite scan_events_store_cells_dense by done.
  apply list_fmap_ext. intros _ k _. by rewrite Z.mul_0_l, Z.add_0_l.
Qed.

Lemma run_lines : forall cs m,
  RX_lines (self (run pf cs m)) = RX_lines (self m) /\
  TX_lines (self (run pf cs m)) = TX_lines (self m).
Proof.
  induction cs as [|c cs IH]; intros m; [done|].
  rewrite run_cons.
  destruct (call_self pf c m) as (_ & _ & Hrx & Htx & _).
  destruct (IH (call pf c m).2) as [IHrx IHtx].
  split; congruence.
Qed.

(** X16. An object whose [grid] was null at construction, after any
    sequence of calls that leaves it initialised and in raw mode: the next
    [updated] returns true and stores one sample to every cell
    [0, 1, ..., NUM_TX * NUM_RX - 1] of the array allocated by useRawData,
    in this order. *)
Theorem static_object_poll_fills_array cs :
  let m := run pf cs (power_on nullptr) in
  isInit (self m) = true ->
  rawData (self m) = true ->
  (updated pf m).1 = true /\
  exists new,
    events (updated pf m).2 = events m ++ new /\
    (fun s => s.1) <$> grid_stores new =
    (fun k => (block 0, k)) <$> range (NUM_TX * NUM_RX).
Proof.
  cbv zeta. intros Hinit Hraw.
  set (m := run pf cs (power_on nullptr)) in *.
  destruct (run_lines cs (power_on nullptr)) as [Hrx Htx]. fold m in Hrx, Htx.
  destruct (run_unallocated pf uint_bits_min cs _ power_on_unallocated)
    as [[Hu _]|[Ha _]]; fold m in Hu || fold m in Ha.
  { destruct Hu as (_ & _ & _ & _ & Hraw' & _). congruence. }
  destruct Ha as (_ & Hnrx & Hg & _).
  rewrite updated_eq, Hinit, Hraw. cbn [andb fst snd].
  split; [done|].
  assert (Hcx : countActive NUM_RX (RX_lines (self m)) = 12%nat)
    by (rewrite Hrx; reflexivity).
  assert (Hct : countActive NUM_TX (TX_lines (self m)) = 21%nat)
    by (rewrite Htx; reflexivity).
  destruct (getRawData_spec pf uint_bits_min m) as
    (st0 & buffer0 & xs & m' & Hrun & _ & _ & Hxs & _ & _ & _ & Hev);
    [by rewrite Hnrx|].
  rewrite Hrun. cbn [snd]. eexists. split; [exact Hev|].
  change (grid_stores (Transmission I2C_ADDRESS [0; 192] false st0 :: ?tr))
    with (grid_stores tr).
  unfold countActive in Hcx, Hct.
  replace (num_RX (self m))
    with (Z.of_nat (length (active NUM_RX (RX_lines (self m)))))
    by (rewrite Hcx, Hnrx; reflexivity).
  rewrite scan_events_store_cells_dense, Hg, Hcx, Hct by done.
  unfold range. rewrite <- list_fmap_compose.
  apply list_fmap_ext. intros _ k _. unfold compose.
  by rewrite Z.mul_0_l, Z.add_0_l.
Qed.

(** X17. A device that does not answer is not noticed either.  If no burst
    of a scan delivers a byte, every included row of the grid is filled with
    samples decoded from the burst buffer as the scan found it: the
    contents of an uninitialised local array. *)
Theorem silent_device_scan_stores_stack_junk m b cells :
  grid (self m) = block b ->
  heap m !! b = Some cells ->
  length cells = Z.to_nat (NUM_TX * NUM_RX) ->
  stride_ok m ->
  let st0 := to_byte (ack pf (events m) I2C_ADDRESS [0x00; 0xC0]) in
  let h := events m ++ [Transmission I2C_ADDRESS [0x00; 0xC0] false st0] in
  exists m' scan cells',
    getRawData pf m = (tt, m') /\
    events m' = events m ++ scan /\
    heap m' !! b = Some cells' /\
    (Forall (fun d => d = []) (bursts scan) ->
     forall (i j : nat) r,
       (i < countActive NUM_TX (TX_lines (self m)))%nat ->
       active NUM_RX (RX_lines (self m)) !! j = Some r ->
       cells' !! (i * Z.to_nat (num_RX (self m)) + j)%nat =
       Some (sample (to_byte (stack_junk pf h (Z.to_nat (2 * r))))
                    (to_byte (stack_junk pf h (Z.to_nat (2 * r + 1)))))).
Proof.
  intros Hgrid Hb Hlen Hstride st0 h.
  destruct (getRawData_from_stack_junk m b cells Hgrid Hb Hstride)
    as (xs & m' & Hrun & Hxs & Hheap & Hev).
  fold st0 h in Hheap, Hev.
  set (buffer0 := _ <$> seq 0 _) in Hheap, Hev.
  set (rows := active NUM_TX (TX_lines (self m))) in *.
  set (cols := active NUM_RX (RX_lines (self m))) in *.
  pose proof (active_length NUM_TX (TX_lines (self m))) as Hrows.
  pose proof (active_bounds NUM_RX (RX_lines (self m))) as Hcb.
  fold rows in Hrows. fold cols in Hcb.
  assert (Hnrx : Z.of_nat (length cols) <= num_RX (self m) <= NUM_RX)
    by apply Hstride.
  assert (Hblt : (b < length (heap m))%nat) by (eapply lookup_lt_Some; eauto).
  eexists m', _, _.
  split; [exact Hrun|]. split; [exact Hev|].
  split; [rewrite Hheap; by apply list_lookup_insert_eq|].
  change (bursts (Transmission I2C_ADDRESS [0; 192] false st0 :: ?tr))
    with (bursts tr).
  rewrite scan_events_bursts by done. intros Hsilent i j r Hi Hr.
  unfold countActive in Hi. fold rows in Hi.
  destruct (lookup_lt_is_Some_2 rows i) as [t Ht]; [done|].
  assert (Hj : (j < length cols)%nat) by (eapply lookup_lt_Some; eauto).
  replace (i * Z.to_nat (num_RX (self m)) + j)%nat
    with (Z.to_nat ((0 + Z.of_nat i) * num_RX (self m) + Z.of_nat j))
    by nia.
  erewrite scan_cells_lookup; try done; [|lia|unfold NUM_RX, NUM_TX in *; nia].
  rewrite burst_buffer_silent by done. f_equal.
  assert (Hrb : 0 <= r < NUM_RX)
    by (eapply Forall_lookup_1 in Hcb; eauto).
  unfold sample_at, buffer0.
  rewrite !list_lookup_fmap, !lookup_seq_lt by (unfold NUM_RX in *; lia).
  reflexivity.
Qed.

End FurtherScan.

(** What the code does at a concrete input: on a bus where nothing answers,
    the scan of [demo_machine] still asks for its 19 bursts, gets no byte,
    and stores 19 * 11 samples decoded from the stack pattern 0xA5. *)
Example silent_scan_stores_0xA5A5 :
  let scan := events (getRawData dead_platform demo_machine).2 in
  length (bursts scan) = 19%nat /\
  forallb (fun d => bool_decide (d = [])) (bursts scan) = true /\
  length (grid_stores scan) = 209%nat /\
  forallb (fun s => bool_decide (s.2 = 0xA5A5)) (grid_stores scan) = true.
Proof. vm_compute. done. Qed.

(** * The further results on concrete platforms and objects *)

(** [updated] on [sparse_machine] *)
Lemma updated_keeps_object_and_heap_shape_witness :
  (16 <= uint_bits demo_platform) /\
  (grid (self sparse_machine) = block 0%nat) /\
  (heap sparse_machine !! 0%nat = Some (replicate 252 0xDEAD)) /\
  (length (replicate 252 0xDEAD) = Z.to_nat (NUM_TX * NUM_RX)) /\
  (stride_ok sparse_machine) /\
  (exists new cells',
    events (updated demo_platform sparse_machine).2 = events sparse_machine ++ new /\
    Forall (fun s => s.1.1 = block 0%nat /\ 0 <= s.1.2 < Z.of_nat (length (replicate 252 0xDEAD)))
           (grid_stores new) /\
    allocations new = [] /\
    self (updated demo_platform sparse_machine).2 = self sparse_machine /\
    length (heap (updated demo_platform sparse_machine).2) = length (heap sparse_machine) /\
    heap (updated demo_platform sparse_machine).2 !! 0%nat = Some cells' /\
    length cells' = length (replicate 252 0xDEAD) /\
    forall b', b' <> 0%nat -> heap (updated demo_platform sparse_machine).2 !! b' = heap sparse_machine !! b').
Proof.
  assert (H0 : 16 <= uint_bits demo_platform)
    by (cbn; lia).
  assert (H1 : grid (self sparse_machine) = block 0%nat)
    by (reflexivity).
  assert (H2 : heap sparse_machine !! 0%nat = Some (replicate 252 0xDEAD))
    by (reflexivity).
  assert (H3 : length (replicate 252 0xDEAD) = Z.to_nat (NUM_TX * NUM_RX))
    by (reflexivity).
  assert (H4 : stride_ok sparse_machine)
    by (unfold stride_ok; vm_compute; split; discriminate).
  do 5 (split; [assumption|]).
  exact (updated_keeps_object_and_heap_shape
           demo_platform H0 sparse_machine 0%nat (replicate 252 0xDEAD) H1 H2 H3 H4).
Defined.

(** an initialised object on a bus where nothing answers any more *)
Lemma isInit_never_cleared_witness :
  (isInit (self demo_machine) = true) /\
  (isInit (self (run dead_platform [CallInit; CallUseRawData false; CallUpdated] demo_machine)) = true).
Proof.
  assert (H0 : isInit (self demo_machine) = true)
    by (reflexivity).
  do 1 (split; [assumption|]).
  exact (isInit_never_cleared
           dead_platform [CallInit; CallUseRawData false; CallUpdated] demo_machine H0).
Defined.

(** raw mode switched on, then off, then polled *)
Lemma rawData_is_last_request_witness :
  (forall b, CallUseRawData b ∉ [CallUpdated; CallInit]) /\
  (rawData (self (run demo_platform ([CallInit; CallUseRawData true] ++ CallUseRawData false :: [CallUpdated; CallInit]) (power_on nullptr))) = false).
Proof.
  assert (H0 : forall b, CallUseRawData b ∉ [CallUpdated; CallInit])
    by (intros b; intros Hin; rewrite !elem_of_cons, elem_of_nil in Hin; intuition discriminate).
  do 1 (split; [assumption|]).
  exact (rawData_is_last_request
           demo_platform [CallInit; CallUseRawData true] false [CallUpdated; CallInit] (power_on nullptr) H0).
Defined.

(** raw mode requested and polled twice, without init *)
Lemma quiet_before_init_witness :
  (isInit (self (power_on nullptr)) = false) /\
  (CallInit ∉ [CallUseRawData true; CallUpdated; CallUpdated]) /\
  (isInit (self (run demo_platform [CallUseRawData true; CallUpdated; CallUpdated] (power_on nullptr))) = false /\
   bus_traffic (events (run demo_platform [CallUseRawData true; CallUpdated; CallUpdated] (power_on nullptr))) = bus_traffic (events (power_on nullptr)) /\
   grid_stores (events (run demo_platform [CallUseRawData true; CallUpdated; CallUpdated] (power_on nullptr))) = grid_stores (events (power_on nullptr))).
Proof.
  assert (H0 : isInit (self (power_on nullptr)) = false)
    by (reflexivity).
  assert (H1 : CallInit ∉ [CallUseRawData true; CallUpdated; CallUpdated])
    by (intros Hin; rewrite !elem_of_cons, elem_of_nil in Hin; intuition discriminate).
  do 2 (split; [assumption|]).
  exact (quiet_before_init
           demo_platform [CallUseRawData true; CallUpdated; CallUpdated] (power_on nullptr) H0 H1).
Defined.

(** [demo_machine] put in raw mode again and polled *)
Lemma register_writes_without_init_witness :
  (CallInit ∉ [CallUseRawData true; CallUpdated]) /\
  (exists new,
    events (run demo_platform [CallUseRawData true; CallUpdated] demo_machine) = events demo_machine ++ new /\
    Forall (fun rv => rv = (0x00, MODE_TEST) \/ rv = (0x00, 0xC0) \/
                      (rv.1 = 0x01 /\ is_byte rv.2))
           (register_writes new)).
Proof.
  assert (H0 : CallInit ∉ [CallUseRawData true; CallUpdated])
    by (intros Hin; rewrite !elem_of_cons, elem_of_nil in Hin; intuition discriminate).
  do 1 (split; [assumption|]).
  exact (register_writes_without_init
           demo_platform [CallUseRawData true; CallUpdated] demo_machine H0).
Defined.

(** the bytes 0x12 and 0x34 *)
Lemma sample_bytes_round_trip_witness :
  (is_byte 0x12) /\
  (is_byte 0x34) /\
  (Z.shiftr (sample 0x12 0x34) 8 = 0x12 /\ Z.land (sample 0x12 0x34) 0xFF = 0x34).
Proof.
  assert (H0 : is_byte 0x12)
    by (unfold is_byte; lia).
  assert (H1 : is_byte 0x34)
    by (unfold is_byte; lia).
  do 2 (split; [assumption|]).
  exact (sample_bytes_round_trip
           0x12 0x34 H0 H1).
Defined.

(** useRawData called twice on a static object *)
Lemma static_object_allocates_once_witness :
  (16 <= uint_bits demo_platform) /\
  (CallUseRawData false ∈ [CallUseRawData false; CallInit; CallUseRawData true; CallUpdated]) /\
  (let m := run demo_platform [CallUseRawData false; CallInit; CallUseRawData true; CallUpdated] (power_on nullptr) in
  grid (self m) = block 0 /\
  allocations (events m) = [(0%nat, NUM_TX * NUM_RX)] /\
  exists cells,
    heap m = [cells] /\ length cells = Z.to_nat (NUM_TX * NUM_RX)).
Proof.
  assert (H0 : 16 <= uint_bits demo_platform)
    by (cbn; lia).
  assert (H1 : CallUseRawData false ∈ [CallUseRawData false; CallInit; CallUseRawData true; CallUpdated])
    by (apply list_elem_of_here).
  do 2 (split; [assumption|]).
  exact (static_object_allocates_once
           demo_platform H0 [CallUseRawData false; CallInit; CallUseRawData true; CallUpdated] false H1).
Defined.

(** [demo_machine] polled three times *)
Lemma polling_repeats_scan_protocol_witness :
  (16 <= uint_bits demo_platform) /\
  (stride_ok demo_machine) /\
  (isInit (self demo_machine) = true) /\
  (rawData (self demo_machine) = true) /\
  (exists new,
    events (run demo_platform (replicate 3 CallUpdated) demo_machine) = events demo_machine ++ new /\
    register_writes new =
      concat (replicate 3
        ((0x00, 0xC0) ::
         ((fun t => (0x01, NUM_TX - 1 - t)) <$>
          active NUM_TX (TX_lines (self demo_machine))))) /\
    self (run demo_platform (replicate 3 CallUpdated) demo_machine) = self demo_machine).
Proof.
  assert (H0 : 16 <= uint_bits demo_platform)
    by (cbn; lia).
  assert (H1 : stride_ok demo_machine)
    by (unfold stride_ok; vm_compute; split; discriminate).
  assert (H2 : isInit (self demo_machine) = true)
    by (reflexivity).
  assert (H3 : rawData (self demo_machine) = true)
    by (reflexivity).
  do 4 (split; [assumption|]).
  exact (polling_repeats_scan_protocol
           demo_platform H0 3%nat demo_machine H1 H2 H3).
Defined.

(** the scan of [no_tx_machine] *)
Lemma scan_without_tx_lines_witness :
  (16 <= uint_bits demo_platform) /\
  (stride_ok no_tx_machine) /\
  (countActive NUM_TX (TX_lines (self no_tx_machine)) = 0%nat) /\
  (exists st0 m',
    getRawData demo_platform no_tx_machine = (tt, m') /\
    events m' =
      events no_tx_machine ++ [Transmission I2C_ADDRESS [0x00; 0xC0] false st0] /\
    heap m' = heap no_tx_machine /\ self m' = self no_tx_machine).
Proof.
  assert (H0 : 16 <= uint_bits demo_platform)
    by (cbn; lia).
  assert (H1 : stride_ok no_tx_machine)
    by (unfold stride_ok; vm_compute; split; discriminate).
  assert (H2 : countActive NUM_TX (TX_lines (self no_tx_machine)) = 0%nat)
    by (reflexivity).
  do 3 (split; [assumption|]).
  exact (scan_without_tx_lines
           demo_platform H0 no_tx_machine H1 H2).
Defined.

(** the scan of [no_rx_machine] *)
Lemma scan_without_rx_lines_witness :
  (16 <= uint_bits demo_platform) /\
  (stride_ok no_rx_machine) /\
  (countActive NUM_RX (RX_lines (self no_rx_machine)) = 0%nat) /\
  (exists m' scan,
    getRawData demo_platform no_rx_machine = (tt, m') /\
    events m' = events no_rx_machine ++ scan /\
    tx_selects scan =
      (fun t => NUM_TX - 1 - t) <$> active NUM_TX (TX_lines (self no_rx_machine)) /\
    length (bursts scan) = countActive NUM_TX (TX_lines (self no_rx_machine)) /\
    grid_stores scan = [] /\
    heap m' = heap no_rx_machine).
Proof.
  assert (H0 : 16 <= uint_bits demo_platform)
    by (cbn; lia).
  assert (H1 : stride_ok no_rx_machine)
    by (unfold stride_ok; vm_compute; split; discriminate).
  assert (H2 : countActive NUM_RX (RX_lines (self no_rx_machine)) = 0%nat)
    by (reflexivity).
  do 3 (split; [assumption|]).
  exact (scan_without_rx_lines
           demo_platform H0 no_rx_machine H1 H2).
Defined.

(** the first two rows of [demo_machine] scanned on a bus where nothing answers *)
Lemma empty_burst_repeats_previous_row_witness :
  (16 <= uint_bits dead_platform) /\
  (grid (self demo_machine) = block 0%nat) /\
  (heap demo_machine !! 0%nat = Some (replicate 252 0)) /\
  (length (replicate 252 0) = Z.to_nat (NUM_TX * NUM_RX)) /\
  (stride_ok demo_machine) /\
  ((1 < countActive NUM_TX (TX_lines (self demo_machine)))%nat) /\
  ((0 < countActive NUM_RX (RX_lines (self demo_machine)))%nat) /\
  (exists m' scan cells',
    getRawData dead_platform demo_machine = (tt, m') /\
    events m' = events demo_machine ++ scan /\
    heap m' !! 0%nat = Some cells' /\
    (bursts scan !! 1%nat = Some [] ->
     cells' !! (1 * Z.to_nat (num_RX (self demo_machine)) + 0)%nat =
     cells' !! (0 * Z.to_nat (num_RX (self demo_machine)) + 0)%nat)).
Proof.
  assert (H0 : 16 <= uint_bits dead_platform)
    by (cbn; lia).
  assert (H1 : grid (self demo_machine) = block 0%nat)
    by (reflexivity).
  assert (H2 : heap demo_machine !! 0%nat = Some (replicate 252 0))
    by (reflexivity).
  assert (H3 : length (replicate 252 0) = Z.to_nat (NUM_TX * NUM_RX))
    by (reflexivity).
  assert (H4 : stride_ok demo_machine)
    by (unfold stride_ok; vm_compute; split; discriminate).
  assert (H5 : (1 < countActive NUM_TX (TX_lines (self demo_machine)))%nat)
    by (vm_compute; lia).
  assert (H6 : (0 < countActive NUM_RX (RX_lines (self demo_machine)))%nat)
    by (vm_compute; lia).
  do 7 (split; [assumption|]).
  exact (empty_burst_repeats_previous_row
           dead_platform H0 demo_machine 0%nat (replicate 252 0) 0%nat 0%nat H1 H2 H3 H4 H5 H6).
Defined.

(** the scan of [demo_machine], whose [num_RX] is the 11 RX lines included *)
Lemma dense_scan_stores_in_ascending_order_witness :
  (16 <= uint_bits demo_platform) /\
  (num_RX (self demo_machine) = Z.of_nat (countActive NUM_RX (RX_lines (self demo_machine)))) /\
  (exists m' scan,
    getRawData demo_platform demo_machine = (tt, m') /\
    events m' = events demo_machine ++ scan /\
    (fun s => s.1) <$> grid_stores scan =
    (fun k => (grid (self demo_machine), Z.of_nat k)) <$>
      seq 0 (countActive NUM_TX (TX_lines (self demo_machine)) *
             countActive NUM_RX (RX_lines (self demo_machine)))).
Proof.
  assert (H0 : 16 <= uint_bits demo_platform)
    by (cbn; lia).
  assert (H1 : num_RX (self demo_machine) = Z.of_nat (countActive NUM_RX (RX_lines (self demo_machine))))
    by (reflexivity).
  do 2 (split; [assumption|]).
  exact (dense_scan_stores_in_ascending_order
           demo_platform H0 demo_machine H1).
Defined.

(** a static object started up and polled once, then polled again *)
Lemma static_object_poll_fills_array_witness :
  (16 <= uint_bits demo_platform) /\
  (isInit (self (run demo_platform [CallInit; CallUseRawData true; CallUpdated] (power_on nullptr))) = true) /\
  (rawData (self (run demo_platform [CallInit; CallUseRawData true; CallUpdated] (power_on nullptr))) = true) /\
  ((updated demo_platform (run demo_platform [CallInit; CallUseRawData true; CallUpdated] (power_on nullptr))).1 = true /\
  exists new,
    events (updated demo_platform (run demo_platform [CallInit; CallUseRawData true; CallUpdated] (power_on nullptr))).2 = events (run demo_platform [CallInit; CallUseRawData true; CallUpdated] (power_on nullptr)) ++ new /\
    (fun s => s.1) <$> grid_stores new =
    (fun k => (block 0, k)) <$> range (NUM_TX * NUM_RX)).
Proof.
  assert (H0 : 16 <= uint_bits demo_platform)
    by (cbn; lia).
  assert (H1 : isInit (self (run demo_platform [CallInit; CallUseRawData true; CallUpdated] (power_on nullptr))) = true)
    by (vm_compute; reflexivity).
  assert (H2 : rawData (self (run demo_platform [CallInit; CallUseRawData true; CallUpdated] (power_on nullptr))) = true)
    by (vm_compute; reflexivity).
  do 3 (split; [assumption|]).
  exact (static_object_poll_fills_array
           demo_platform H0 [CallInit; CallUseRawData true; CallUpdated] H1 H2).
Defined.

(** [demo_machine] scanned on a bus where nothing answers *)
Lemma silent_device_scan_stores_stack_junk_witness :
  (16 <= uint_bits dead_platform) /\
  (grid (self demo_machine) = block 0%nat) /\
  (heap demo_machine !! 0%nat = Some (replicate 252 0)) /\
  (length (replicate 252 0) = Z.to_nat (NUM_TX * NUM_RX)) /\
  (stride_ok demo_machine) /\
  (let st0 := to_byte (ack dead_platform (events demo_machine) I2C_ADDRESS [0x00; 0xC0]) in
  let h := events demo_machine ++ [Transmission I2C_ADDRESS [0x00; 0xC0] false st0] in
  exists m' scan cells',
    getRawData dead_platform demo_machine = (tt, m') /\
    events m' = events demo_machine ++ scan /\
    heap m' !! 0%nat = Some cells' /\
    (Forall (fun d => d = []) (bursts scan) ->
     forall (i j : nat) r,
       (i < countActive NUM_TX (TX_lines (self demo_machine)))%nat ->
       active NUM_RX (RX_lines (self demo_machine)) !! j = Some r ->
       cells' !! (i * Z.to_nat (num_RX (self demo_machine)) + j)%nat =
       Some (sample (to_byte (stack_junk dead_platform h (Z.to_nat (2 * r))))
                    (to_byte (stack_junk dead_platform h (Z.to_nat (2 * r + 1))))))).
Proof.
  assert (H0 : 16 <= uint_bits dead_platform)
    by (cbn; lia).
  assert (H1 : grid (self demo_machine) = block 0%nat)
    by (reflexivity).
  assert (H2 : heap demo_machine !! 0%nat = Some (replicate 252 0))
    by (reflexivity).
  assert (H3 : length (replicate 252 0) = Z.to_nat (NUM_TX * NUM_RX))
    by (reflexivity).
  assert (H4 : stride_ok demo_machine)
    by (unfold stride_ok; vm_compute; split; discriminate).
  do 5 (split; [assumption|]).
  exact (silent_device_scan_stores_stack_junk
           dead_platform H0 demo_machine 0%nat (replicate 252 0) H1 H2 H3 H4).
Defined.
